(** * viswsl.modules.visual_stream: visual stream adapters

    A shallow embedding of [src/viswsl/modules/visual_stream.py] and the
    properties of its four classes: the base class [VisualStream], the
    constant [BlindVisualStream], and the two backbone adapters
    [TorchvisionVisualStream] and [D2BackboneVisualStream].

    Python dictionaries are finite maps ([gmap string _]); where iteration
    order matters (an [OrderedDict] of parameters, the ordered children of
    a module) they are association lists.  Exceptions are an error type and
    the config file on disk is an explicit file-system state. *)

From Stdlib Require Import String Ascii ZArith Lia.
From stdpp Require Import base gmap strings list fin_maps pretty.

Open Scope string_scope.
Open Scope list_scope.

(** ** Python string operations used by the module *)

Module PyStr.

(** [s.startswith(p)] *)
Fixpoint startswith (s p : string) {struct p} : bool :=
  match p with
  | EmptyString => true
  | String a p' =>
      match s with
      | EmptyString => false
      | String b s' => if Ascii.eqb a b then startswith s' p' else false
      end
  end.

(** [s[n:]] *)
Fixpoint drop (n : nat) (s : string) : string :=
  match n, s with
  | S k, String _ s' => drop k s'
  | _, _ => s
  end.

(** The scan of [str.replace] for a non-empty [old]: left to right, an
    occurrence found at the current position is replaced and the scan
    resumes behind it ([skip] counts the characters of the occurrence that
    are still to be passed over), so occurrences do not overlap. *)
Fixpoint replace_go (old new : string) (skip : nat) (s : string) : string :=
  match s with
  | EmptyString => EmptyString
  | String c s' =>
      match skip with
      | S k => replace_go old new k s'
      | O =>
          if startswith s old
          then new +:+ replace_go old new (String.length old - 1) s'
          else String c (replace_go old new 0 s')
      end
  end.

(** [str.replace] with an empty [old] puts [new] before every character
    and at the end. *)
Fixpoint intersperse (new s : string) : string :=
  match s with
  | EmptyString => new
  | String c s' => new +:+ String c (intersperse new s')
  end.

(** [s.replace(old, new)] *)
Definition replace (s old new : string) : string :=
  match old with
  | EmptyString => intersperse new s
  | String _ _ => replace_go old new 0 s
  end.

(** Number of positions of [s] at which [old] occurs (overlapping
    occurrences counted). *)
Fixpoint occurrences (s old : string) : nat :=
  match s with
  | EmptyString => 0
  | String _ s' => (if startswith s old then 1 else 0) + occurrences s' old
  end.

Definition is_digit (c : ascii) : bool :=
  let n := nat_of_ascii c in (48 <=? n)%nat && (n <=? 57)%nat.

Fixpoint all_chars (P : ascii -> bool) (s : string) : bool :=
  match s with
  | EmptyString => true
  | String c s' => P c && all_chars P s'
  end.

(** Every non-empty suffix of [s]. *)
Fixpoint suffixes (s : string) : list string :=
  match s with
  | EmptyString => []
  | String _ s' => s :: suffixes s'
  end.

End PyStr.

(** ** The Python world the module lives in *)

(** Tensors are opaque values with a shape; scalars (the entries of the
    bias of [BlindVisualStream]) are opaque as well.  [ForeignExn] are the
    exceptions raised inside third-party code, [is_Exception e] tells
    whether [e] derives from [Exception] (and not only [BaseException]). *)
Class PyWorld := {
  Tensor : Type;
  Scalar : Type;
  tensor_shape : Tensor -> list nat;
  ForeignExn : Type;
  is_Exception : ForeignExn -> bool;
}.

Section Runtime.
Context `{PyWorld}.

Inductive exn :=
| KeyError (key : string)
| TypeError
| IndexError
| AttributeError (attr : string)
| FileNotFoundError (path : string)
| RuntimeError (msg : string)
| UnboundLocalError (var : string)
| Foreign (e : ForeignExn).

Inductive result (A : Type) :=
| Ok (a : A)
| Raise (e : exn).
#[global] Arguments Ok {A} a.
#[global] Arguments Raise {A} e.

#[global] Instance result_bind : MBind result := fun A B k r =>
  match r with
  | Ok a => k a
  | Raise e => Raise e
  end.

(** [d[key]] on a dictionary. *)
Definition getitem {A} (d : gmap string A) (key : string) : result A :=
  match d !! key with
  | Some a => Ok a
  | None => Raise (KeyError key)
  end.

(** [image.size(i)] *)
Definition Tensor_size (t : Tensor) (i : nat) : result nat :=
  match tensor_shape t !! i with
  | Some n => Ok n
  | None => Raise IndexError
  end.

(** A child module: what calling it computes, and its own [state_dict()]. *)
Record Layer := {
  call : Tensor -> Tensor;
  layer_state : list (string * Tensor);
}.

(** [nn.Identity()] *)
Definition Identity : Layer := {| call := fun x => x; layer_state := [] |}.

(** A container module: its children in registration order. *)
Record NNModule := { named_children : list (string * Layer) }.

(** [m.state_dict().items()]: the children's entries, each key prefixed
    with the name of the child. *)
Definition state_dict (m : NNModule) : list (string * Tensor) :=
  flat_map
    (fun '(name, l) => map (fun '(k, t) => (name +:+ "." +:+ k, t)) (layer_state l))
    (named_children m).

(** [setattr(m, name, l)] for a module value: an existing child is replaced
    in place, a new one is registered last. *)
Fixpoint set_child (name : string) (l : Layer) (cs : list (string * Layer))
  : list (string * Layer) :=
  match cs with
  | [] => [(name, l)]
  | (n, l') :: cs' =>
      if String.eqb n name then (n, l) :: cs' else (n, l') :: set_child name l cs'
  end.

Definition lookup_child (name : string) (cs : list (string * Layer)) : option Layer :=
  snd <$> List.find (fun c => String.eqb (fst c) name) cs.

(** What [forward] of an adapter returns: a tensor or a dictionary. *)
Inductive output :=
| OutTensor (t : Tensor)
| OutDict (d : gmap string Tensor).

End Runtime.

(** ** class VisualStream *)

Record VisualStream := { _visual_feature_size : Z }.

Definition VisualStream_init (vfs : Z) : VisualStream :=
  {| _visual_feature_size := vfs |}.

Definition visual_feature_size (self : VisualStream) : Z :=
  _visual_feature_size self.

(** Every subclass holds the base part it inherits. *)
Class IsVisualStream (A : Type) := super : A -> VisualStream.

(** ** class BlindVisualStream *)

Section Blind.
Context `{PyWorld}.

(** [nn.Parameter] holding a two-dimensional tensor of scalars. *)
Record NNParameter := {
  data : list (list Scalar);
  requires_grad : bool;
}.

Record BlindVisualStream := {
  blind_super : VisualStream;
  _bias : NNParameter;
}.

#[global] Instance blind_is_stream : IsVisualStream BlindVisualStream := blind_super.

(** [torch.full((rows, cols), fill_value=v)]; a negative dimension is a
    [RuntimeError]. *)
Definition torch_full (rows cols : Z) (v : Scalar) : result (list (list Scalar)) :=
  if bool_decide (0 <= rows)%Z && bool_decide (0 <= cols)%Z
  then Ok (replicate (Z.to_nat rows) (replicate (Z.to_nat cols) v))
  else Raise (RuntimeError "Trying to create tensor with negative dimension").

(** [t.unsqueeze(0)] on a two-dimensional tensor. *)
Definition unsqueeze0 (t : list (list Scalar)) : list (list (list Scalar)) := [t].

(** [l] repeated [k] times in a row. *)
Definition tile {A} (k : nat) (l : list A) : list A := concat (replicate k l).

(** [t.repeat(a, b, c)] on a three-dimensional tensor. *)
Definition repeat3 (t : list (list (list Scalar))) (a b c : nat)
  : list (list (list Scalar)) :=
  tile a (map (fun plane => tile b (map (tile c) plane)) t).

Definition BlindVisualStream_init (vfs : Z) (bias_value : Scalar)
  : result BlindVisualStream :=
  let base := VisualStream_init vfs in
  t ← torch_full 1 (visual_feature_size base) bias_value;
  Ok {| blind_super := base;
        _bias := {| data := t; requires_grad := false |} |}.

(** [forward] returns its value and the object as the call leaves it. *)
Definition BlindVisualStream_forward (self : BlindVisualStream) (image : Tensor)
  : result (list (list (list Scalar))) * BlindVisualStream :=
  (batch_size ← Tensor_size image 0;
   Ok (repeat3 (unsqueeze0 (data (_bias self))) batch_size 1 1),
   self).

(** The object after a sequence of [forward] calls, one per image. *)
Fixpoint blind_after_calls (self : BlindVisualStream) (images : list Tensor)
  : BlindVisualStream :=
  match images with
  | [] => self
  | image :: rest => blind_after_calls (BlindVisualStream_forward self image).2 rest
  end.

End Blind.

(** ** Third-party libraries *)

(** The file system: the text of each file, by path. *)
Abbreviation FileSystem := (gmap string string).

Section ThirdParty.
Context `{PyWorld}.

(** What [detectron2.model_zoo.get] builds: the parts the adapter reads. *)
Record D2Model := {
  backbone : NNModule;
  roi_heads_res5 : Layer;
}.

(** - [torchvision_models name] is [getattr(torchvision.models, name)]: a
      constructor taking [pretrained], [zero_init_residual] and the
      keyword arguments;
    - [d2mz_get cfg trained fs] is [detectron2.model_zoo.get], which reads
      the config files of [fs];
    - [resource_filename] is [pkg_resources.resource_filename]. *)
Class Libraries := {
  Kwargs : Type;
  torchvision_models : string -> option (bool -> bool -> Kwargs -> ForeignExn + NNModule);
  d2mz_get : string -> bool -> FileSystem -> ForeignExn + D2Model;
  resource_filename : string -> string -> string;
}.

End ThirdParty.

(** ** class TorchvisionVisualStream *)

Section Torchvision.
Context `{PyWorld} `{!Libraries}.

Record TorchvisionVisualStream := {
  tv_super : VisualStream;
  cnn : NNModule;
  _stage_names : list string;
}.

#[global] Instance torchvision_is_stream : IsVisualStream TorchvisionVisualStream := tv_super.

Definition TorchvisionVisualStream_init
    (name : string) (vfs : Z) (pretrained : bool) (kwargs : Kwargs)
  : result TorchvisionVisualStream :=
  let base := VisualStream_init vfs in
  ctor ← match torchvision_models name with
         | Some c => Ok c
         | None => Raise (AttributeError name)
         end;
  model ← match ctor pretrained true kwargs with
          | inr m => Ok m
          | inl e => Raise (Foreign e)
          end;
  let model := {| named_children := set_child "fc" Identity (named_children model) |} in
  Ok {| tv_super := base;
        cnn := model;
        _stage_names := (fun i : nat => "layer" +:+ pretty i) <$> seq 1 4 |}.

(** One turn of the loop of [forward]: [out] is unbound ([None]) before the
    first turn, [acc] is [intermediate_outputs]. *)
Definition forward_step (stage_names : list string) (image : Tensor)
    (idx : nat) (child : string * Layer)
    (st : option Tensor * gmap string Tensor)
  : result (option Tensor * gmap string Tensor) :=
  let '(out, acc) := st in
  let '(name, layer) := child in
  out ← (if (idx =? 0)%nat then Ok (call layer image)
         else match out with
              | Some o => Ok (call layer o)
              | None => Raise (UnboundLocalError "out")
              end);
  Ok (Some out,
      if bool_decide (name ∈ stage_names) then <[name := out]> acc else acc).

(** [for idx, (name, layer) in enumerate(children)], from index [idx] on. *)
Fixpoint forward_loop (stage_names : list string) (image : Tensor)
    (idx : nat) (children : list (string * Layer))
    (st : option Tensor * gmap string Tensor)
  : result (option Tensor * gmap string Tensor) :=
  match children with
  | [] => Ok st
  | child :: rest =>
      st' ← forward_step stage_names image idx child st;
      forward_loop stage_names image (S idx) rest st'
  end.

(** The tensor that leaves a chain of children fed with [x]. *)
Definition feed (children : list (string * Layer)) (x : Tensor) : Tensor :=
  foldl (fun t child => call child.2 t) x children.

(** The stage outputs of a chain of children fed with [x], added to [acc]. *)
Fixpoint collect (stage_names : list string) (x : Tensor)
    (children : list (string * Layer)) (acc : gmap string Tensor)
  : gmap string Tensor :=
  match children with
  | [] => acc
  | (name, layer) :: rest =>
      let out := call layer x in
      collect stage_names out rest
        (if bool_decide (name ∈ stage_names) then <[name := out]> acc else acc)
  end.

Definition TorchvisionVisualStream_forward
    (self : TorchvisionVisualStream) (image : Tensor) (return_intermediate_outputs : bool)
  : result output * TorchvisionVisualStream :=
  (st ← forward_loop (_stage_names self) image 0 (named_children (cnn self)) (None, ∅);
   let intermediate_outputs := st.2 in
   if return_intermediate_outputs then Ok (OutDict intermediate_outputs)
   else t ← getitem intermediate_outputs "layer4"; Ok (OutTensor t),
   self).

Definition DETECTRON2_RENAME_MAPPING : list (string * string) :=
  [ ("layer1", "res2");
    ("layer2", "res3");
    ("layer3", "res4");
    ("layer4", "res5");
    ("bn1", "conv1.norm");
    ("bn2", "conv2.norm");
    ("bn3", "conv3.norm");
    ("downsample.0", "shortcut");
    ("downsample.1", "shortcut.norm") ].

(** The inner loop: every entry of the table applied in turn. *)
Definition apply_mapping (mapping : list (string * string)) (name : string) : string :=
  foldl (fun name '(old, new) => PyStr.replace name old new) name mapping.

Definition rename_substrings : string -> string :=
  apply_mapping DETECTRON2_RENAME_MAPPING.

(** The new key of one parameter. *)
Definition d2_name (name : string) : string :=
  let name := rename_substrings name in
  if negb (PyStr.startswith name "res") then "stem." +:+ name else name.

(** The outer loop, over [items], on the dictionary [d]. *)
Definition fill (d : gmap string Tensor) (items : list (string * Tensor))
  : gmap string Tensor :=
  foldl (fun d '(name, param) => <[d2_name name := param]> d) d items.

(** [d2_backbone_dict] once the loop is over: it starts empty. *)
Definition rename_all (items : list (string * Tensor)) : gmap string Tensor :=
  fill ∅ items.

Record D2Checkpoint := {
  model : gmap string Tensor;
  __author__ : string;
  matching_heuristics : bool;
}.

Definition detectron2_backbone_state_dict (self : TorchvisionVisualStream)
  : D2Checkpoint * TorchvisionVisualStream :=
  ({| model := rename_all (state_dict (cnn self));
      __author__ := "Karan Desai";
      matching_heuristics := true |},
   self).

End Torchvision.

(** ** class D2BackboneVisualStream *)

Section D2Backbone.
Context `{PyWorld} `{!Libraries}.

(** Code that reads and writes files and may raise. *)
Definition IO (A : Type) : Type := FileSystem -> result A * FileSystem.

#[global] Instance IO_ret : MRet IO := fun A a fs => (Ok a, fs).
#[global] Instance IO_bind : MBind IO := fun A B k m fs =>
  match m fs with
  | (Ok a, fs') => k a fs'
  | (Raise e, fs') => (Raise e, fs')
  end.

Definition raise {A} (e : exn) : IO A := fun fs => (Raise e, fs).

Definition lift {A} (r : result A) : IO A := fun fs => (r, fs).

(** [try: body  except <handled>: handler]; an exception for which
    [handler] gives [None] is not caught. *)
Definition try_except {A} (body : IO A) (handler : exn -> option (IO A)) : IO A :=
  fun fs =>
    match body fs with
    | (Ok a, fs') => (Ok a, fs')
    | (Raise e, fs') =>
        match handler e with
        | Some h => h fs'
        | None => (Raise e, fs')
        end
    end.

(** [open(path, 'r')] and [read()] *)
Definition read_file (path : string) : IO string := fun fs =>
  match fs !! path with
  | Some contents => (Ok contents, fs)
  | None => (Raise (FileNotFoundError path), fs)
  end.

(** [open(path, 'w')] and [write(contents)] *)
Definition write_file (path contents : string) : IO unit := fun fs =>
  (Ok (), <[path := contents]> fs).

(** [os.path.join(a, b)] for a relative [b]. *)
Definition path_join (a b : string) : string := a +:+ "/" +:+ b.

Definition dquote : string := String (ascii_of_nat 34) EmptyString.
Definition newline : ascii := ascii_of_nat 10.

(** The text of [s] up to its first newline; [None] when there is none. *)
Fixpoint until_newline (s : string) : option string :=
  match s with
  | EmptyString => None
  | String c s' =>
      if Ascii.eqb c newline then Some EmptyString
      else String c <$> until_newline s'
  end.

(** [l] without its last character, when that is a double quote. *)
Fixpoint strip_quote (l : string) : option string :=
  match l with
  | EmptyString => None
  | String c EmptyString => if Ascii.eqb c (ascii_of_nat 34) then Some EmptyString else None
  | String c l' => String c <$> strip_quote l'
  end.

(** The pattern of [__init__] (the word WEIGHTS, a colon, a space, then a
    quoted greedy group of any characters and a newline) matched at the start of [s]: the
    group is greedy and does not cross a newline, so it is the rest of the
    line without the closing quote that must end it. *)
Definition match_weights (s : string) : option string :=
  if PyStr.startswith s ("WEIGHTS: " +:+ dquote)
  then l ← until_newline (PyStr.drop 10 s); strip_quote l
  else None.

(** [re.search(pattern, s)[1]]: group 1 of the leftmost match. *)
Fixpoint re_search_weights (s : string) : option string :=
  match match_weights s with
  | Some w => Some w
  | None =>
      match s with
      | EmptyString => None
      | String _ s' => re_search_weights s'
      end
  end.

Definition MODEL_NAME_TO_CFG_PATH : gmap string string :=
  list_to_map
    [ ("coco_faster_rcnn_R_50_C4", "COCO-Detection/faster_rcnn_R_50_C4_3x.yaml");
      ("coco_faster_rcnn_R_50_DC5", "COCO-Detection/faster_rcnn_R_50_DC5_3x.yaml");
      ("coco_faster_rcnn_R_101_C4", "COCO-Detection/faster_rcnn_R_101_C4_3x.yaml");
      ("coco_faster_rcnn_R_101_DC5", "COCO-Detection/faster_rcnn_R_101_DC5_3x.yaml");
      ("coco_mask_rcnn_R_50_C4", "COCO-InstanceSegmentation/mask_rcnn_R_50_C4_3x.yaml");
      ("coco_mask_rcnn_R_50_DC5", "COCO-InstanceSegmentation/mask_rcnn_R_50_DC5_3x.yaml");
      ("coco_mask_rcnn_R_101_C4", "COCO-InstanceSegmentation/mask_rcnn_R_101_C4_3x.yaml");
      ("coco_mask_rcnn_R_101_DC5", "COCO-InstanceSegmentation/mask_rcnn_R_101_DC5_3x.yaml") ].

Record D2BackboneVisualStream := {
  d2_super : VisualStream;
  d2_cnn : NNModule;
  _layer4 : Layer;
  d2_stage_names : list string;
}.

#[global] Instance d2_is_stream : IsVisualStream D2BackboneVisualStream := d2_super.

(** [isinstance(e, Exception)]: the built-in errors all are. *)
Definition caught_by_except_Exception (e : exn) : bool :=
  match e with
  | Foreign e => is_Exception e
  | _ => true
  end.

(** The first [try] block: when not pretrained, the WEIGHTS value is cut
    out of the config file.  Gives the locals [d2config_path] and
    [weights_cfg] when they were bound. *)
Definition patch_config (name : string) (pretrained : bool) : IO (option (string * string)) :=
  try_except
    (if negb pretrained then
       cfg ← lift (getitem MODEL_NAME_TO_CFG_PATH name);
       let d2config_path :=
         resource_filename "detectron2.model_zoo" (path_join "configs" cfg) in
       contents ← read_file d2config_path;
       weights_cfg ← lift (match re_search_weights contents with
                           | Some w => Ok w
                           | None => Raise TypeError
                           end);
       let contents := PyStr.replace contents weights_cfg "" in
       _ ← write_file d2config_path contents;
       mret (Some (d2config_path, weights_cfg))
     else mret None)
    (fun err =>
       match err with
       | FileNotFoundError _ =>
           Some (raise (RuntimeError (name +:+ " is no available from D2 model zoo!")))
       | _ => None
       end).

(** [d2mz.get(cfg, trained=False)] *)
Definition model_zoo_get (cfg : string) : IO D2Model := fun fs =>
  (match d2mz_get cfg false fs with
   | inr m => Ok m
   | inl e => Raise (Foreign e)
   end, fs).

(** The second [try] block: [inl] is [d2_model], [inr] the exception kept
    in [exception] (with [self.cnn = None]). *)
Definition build_model (name : string) : IO (D2Model + exn) :=
  try_except
    (cfg ← lift (getitem MODEL_NAME_TO_CFG_PATH name);
     d2_model ← model_zoo_get cfg;
     mret (inl d2_model))
    (fun e => if caught_by_except_Exception e then Some (mret (inr e)) else None).

(** The revert of the config file. *)
Definition restore_config (pretrained : bool) (locals : option (string * string)) : IO unit :=
  if negb pretrained then
    match locals with
    | Some (d2config_path, weights_cfg) =>
        contents ← read_file d2config_path;
        let contents :=
          PyStr.replace contents
            ("WEIGHTS: " +:+ dquote +:+ dquote)
            ("WEIGHTS: " +:+ dquote +:+ weights_cfg +:+ dquote) in
        write_file d2config_path contents
    | None => raise (UnboundLocalError "d2config_path")
    end
  else mret ().

Definition D2BackboneVisualStream_init
    (name : string) (vfs : Z) (pretrained : bool) : IO D2BackboneVisualStream :=
  let base := VisualStream_init vfs in
  locals ← patch_config name pretrained;
  attempt ← build_model name;
  _ ← restore_config pretrained locals;
  match attempt with
  | inr exception => raise exception
  | inl d2_model =>
      mret {| d2_super := base;
              d2_cnn := backbone d2_model;
              _layer4 := roi_heads_res5 d2_model;
              d2_stage_names := (fun i : nat => "res" +:+ pretty i) <$> seq 2 3 |}
  end.

Definition D2BackboneVisualStream_forward
    (self : D2BackboneVisualStream) (image : Tensor) (return_intermediate_outputs : bool)
  : result output * D2BackboneVisualStream :=
  (st ← forward_loop (d2_stage_names self) image 0 (named_children (d2_cnn self)) (None, ∅);
   out ← match st.1 with
         | Some o => Ok o
         | None => Raise (UnboundLocalError "out")
         end;
   let intermediate_outputs := <["res5" := call (_layer4 self) out]> st.2 in
   res2 ← getitem intermediate_outputs "res2";
   res3 ← getitem intermediate_outputs "res3";
   res4 ← getitem intermediate_outputs "res4";
   res5 ← getitem intermediate_outputs "res5";
   let intermediate_outputs : gmap string Tensor :=
     <["layer4" := res5]> (<["layer3" := res4]> (<["layer2" := res3]>
       (<["layer1" := res2]> ∅))) in
   if return_intermediate_outputs then Ok (OutDict intermediate_outputs)
   else t ← getitem intermediate_outputs "layer4"; Ok (OutTensor t),
   self).

End D2Backbone.

(** ** The parameter names of a torchvision ResNet *)

(** The constructor of [TorchvisionVisualStream] passes
    [zero_init_residual], which only the ResNet family of torchvision
    takes.  Its [state_dict] (once [fc] is an identity) names the stem
    [conv1.weight] and [bn1.*], and the parameters of block [i] of stage
    [s] [layer<s>.<i>.<parameter>]. *)
Module ResNet.

Definition bn_keys : list string :=
  ["weight"; "bias"; "running_mean"; "running_var"; "num_batches_tracked"].

Definition stem_keys : list string :=
  "conv1.weight" :: (String.append "bn1." <$> bn_keys).

Definition block_keys : list string :=
  ["conv1.weight"; "conv2.weight"; "conv3.weight"]
  ++ (String.append "bn1." <$> bn_keys)
  ++ (String.append "bn2." <$> bn_keys)
  ++ (String.append "bn3." <$> bn_keys)
  ++ ["downsample.0.weight"]
  ++ (String.append "downsample.1." <$> bn_keys).

Definition stage_prefixes : list string := ["layer1."; "layer2."; "layer3."; "layer4."].

(** The leading digits of a text, and what follows them. *)
Fixpoint split_digits (s : string) : string * string :=
  match s with
  | EmptyString => (EmptyString, EmptyString)
  | String c s' =>
      if PyStr.is_digit c
      then let '(d, r) := split_digits s' in (String c d, r)
      else (EmptyString, s)
  end.

Definition is_block_key (k : string) : bool :=
  existsb
    (fun stage =>
       PyStr.startswith k stage &&
       let '(idx, rest) := split_digits (PyStr.drop (String.length stage) k) in
       negb (String.eqb idx "") &&
       existsb (fun q => String.eqb rest ("." +:+ q)) block_keys)
    stage_prefixes.

Definition is_resnet_key (k : string) : bool :=
  existsb (String.eqb k) stem_keys || is_block_key k.

End ResNet.

(** ** Checks on texts and on the rename table, for the proofs *)

Module Check.

(** Some end of [a] is the beginning of an occurrence of [old] that [a]
    does not hold in full. *)
Definition straddles (a old : string) : bool :=
  existsb
    (fun s => (String.length s <? String.length old)%nat && PyStr.startswith old s)
    (PyStr.suffixes a).

Definition starts_with_non_digit (s : string) : bool :=
  match s with
  | EmptyString => false
  | String c _ => negb (PyStr.is_digit c)
  end.

(** Along the table, no entry has an occurrence across the end of (the
    renamed) [a], and every [old] begins with a character that is no
    digit. *)
Fixpoint splits_along (mapping : list (string * string)) (a : string) : bool :=
  match mapping with
  | [] => true
  | (old, new) :: rest =>
      negb (straddles a old) && starts_with_non_digit old
      && splits_along rest (PyStr.replace a old new)
  end.

Definition injective_on (f : string -> string) (l : list string) : bool :=
  forallb (fun x => forallb (fun y => implb (String.eqb (f x) (f y)) (String.eqb x y)) l) l.

End Check.

(** ** A small concrete world, to run the definitions on *)

Module Example.

(** Tensors are lists of numbers (one dimension), a layer records its
    passage by putting its tag in front. *)
#[local] Instance world : PyWorld := {|
  Tensor := list nat;
  Scalar := Z;
  tensor_shape := fun t => [length t];
  ForeignExn := string;
  is_Exception := fun e => negb (String.eqb e "KeyboardInterrupt");
|}.

Definition tag (k : nat) (state : list (string * list nat)) : Layer :=
  {| call := fun t => k :: t; layer_state := state |}.

Definition bn_state : list (string * list nat) :=
  [("weight", [1]); ("bias", [2]); ("running_mean", [3]); ("running_var", [4]);
   ("num_batches_tracked", [5])].

(** One residual stage with a single block. *)
Definition stage_state : list (string * list nat) :=
  [("0.conv1.weight", [10]); ("0.bn1.weight", [11]); ("0.bn1.bias", [12]);
   ("0.conv2.weight", [13]); ("0.bn2.weight", [14]); ("0.bn2.bias", [15]);
   ("0.downsample.0.weight", [16]); ("0.downsample.1.weight", [17]);
   ("0.downsample.1.bias", [18])].

Definition tiny_resnet : NNModule :=
  {| named_children :=
       [ ("conv1", tag 0 [("weight", [0])]);
         ("bn1", tag 1 bn_state);
         ("relu", tag 2 []);
         ("maxpool", tag 3 []);
         ("layer1", tag 4 stage_state);
         ("layer2", tag 5 stage_state);
         ("layer3", tag 6 stage_state);
         ("layer4", tag 7 stage_state);
         ("avgpool", tag 8 []);
         ("fc", tag 9 [("weight", [20]); ("bias", [21])]) ] |}.

Definition tiny_d2 : D2Model :=
  {| backbone :=
       {| named_children :=
            [ ("stem", tag 0 []); ("res2", tag 1 []); ("res3", tag 2 []);
              ("res4", tag 3 []) ] |};
     roi_heads_res5 := tag 4 [] |}.

(** The model zoo builds a model from any existing config file, except
    that the R_101 ones fail (and [coco_mask_rcnn_R_101_DC5] is
    interrupted by the user). *)
#[local] Instance libraries : Libraries := {|
  Kwargs := unit;
  torchvision_models := fun name =>
    if String.eqb name "resnet18" then Some (fun _ _ _ => inr tiny_resnet) else None;
  d2mz_get := fun cfg _ fs =>
    match fs !! ("/d2/configs/" +:+ cfg) with
    | None => inl "no such config"
    | Some _ =>
        if String.eqb cfg "COCO-InstanceSegmentation/mask_rcnn_R_101_DC5_3x.yaml"
        then inl "KeyboardInterrupt"
        else if (0 <? PyStr.occurrences cfg "R_101")%nat then inl "checkpoint not found"
        else inr tiny_d2
    end;
  resource_filename := fun _ rel => "/d2/" +:+ rel;
|}.

Definition nl : string := String newline EmptyString.

(** A config file as the model zoo ships them. *)
Definition config_text : string :=
  "_BASE_: ../Base-RCNN-C4.yaml" +:+ nl +:+
  "MODEL:" +:+ nl +:+
  "  WEIGHTS: " +:+ dquote +:+ "detectron2://ImageNetPretrained/MSRA/R-50.pkl" +:+ dquote +:+ nl +:+
  "  MASK_ON: False" +:+ nl.

(** A config file that names its weights a second time, in a comment. *)
Definition config_with_comment : string :=
  "# from detectron2://R-101.pkl" +:+ nl +:+
  "MODEL:" +:+ nl +:+
  "  WEIGHTS: " +:+ dquote +:+ "detectron2://R-101.pkl" +:+ dquote +:+ nl.

Definition disk (cfg text : string) : FileSystem :=
  {[ "/d2/configs/" +:+ cfg := text ]}.

(** The objects the constructors build in this world. *)
Definition tiny_blind : BlindVisualStream :=
  {| blind_super := VisualStream_init 3;
     _bias := {| data := [[7; 7; 7]%Z]; requires_grad := false |} |}.

Definition tiny_stream : TorchvisionVisualStream :=
  {| tv_super := VisualStream_init 2048;
     cnn := {| named_children := set_child "fc" Identity (named_children tiny_resnet) |};
     _stage_names := ["layer1"; "layer2"; "layer3"; "layer4"] |}.

Definition tiny_d2_stream : D2BackboneVisualStream :=
  {| d2_super := VisualStream_init 2048;
     d2_cnn := backbone tiny_d2;
     _layer4 := roi_heads_res5 tiny_d2;
     d2_stage_names := ["res2"; "res3"; "res4"] |}.

End Example.

(** ** More of the small world: backbones and files that lack something *)

Module Lacking.

(** A backbone cut short before its last stage. *)
Definition headless_stream : TorchvisionVisualStream (H := Example.world) :=
  {| tv_super := VisualStream_init 2048;
     cnn := {| named_children :=
                 [ ("conv1", Example.tag 0 []); ("layer1", Example.tag 4 []);
                   ("layer2", Example.tag 5 []); ("fc", Identity) ] |};
     _stage_names := ["layer1"; "layer2"; "layer3"; "layer4"] |}.

(** A detectron2 backbone with no child at all, and one without res3. *)
Definition empty_d2_stream : D2BackboneVisualStream (H := Example.world) :=
  {| d2_super := VisualStream_init 2048;
     d2_cnn := {| named_children := [] |};
     _layer4 := Example.tag 4 [];
     d2_stage_names := ["res2"; "res3"; "res4"] |}.

Definition gapped_d2_stream : D2BackboneVisualStream (H := Example.world) :=
  {| d2_super := VisualStream_init 2048;
     d2_cnn := {| named_children :=
                    [ ("stem", Example.tag 0 []); ("res2", Example.tag 1 []);
                      ("res4", Example.tag 3 []) ] |};
     _layer4 := Example.tag 4 [];
     d2_stage_names := ["res2"; "res3"; "res4"] |}.

(** A config file without a WEIGHTS entry. *)
Definition config_without_weights : string :=
  "_BASE_: ../Base-RCNN-C4.yaml" +:+ Example.nl +:+
  "MODEL:" +:+ Example.nl +:+
  "  MASK_ON: False" +:+ Example.nl.

(** A state dictionary in which two parameters get the same new key. *)
Definition colliding_resnet : NNModule (H := Example.world) :=
  {| named_children :=
       [ ("bn1", Example.tag 1 [("weight", [1])]);
         ("conv1", Example.tag 0 [("norm.weight", [2]); ("weight", [3])]) ] |}.

Definition colliding_stream : TorchvisionVisualStream (H := Example.world) :=
  {| tv_super := VisualStream_init 2048;
     cnn := colliding_resnet;
     _stage_names := ["layer1"; "layer2"; "layer3"; "layer4"] |}.

End Lacking.

(** No newline in a text. *)
Definition newline_free (s : string) : bool :=
  PyStr.all_chars (fun c => negb (Ascii.eqb c newline)) s.

(** A decidable statement about concrete values, settled by evaluation. *)
Ltac decide_by_evaluation :=
  refine (bool_decide_unpack _ _); vm_compute; exact I.

(** * Properties *)

(** ** BlindVisualStream *)

Section BlindProperties.
Context `{PyWorld}.

Lemma tile_one {A} (l : list A) : tile 1 l = l.
Proof. unfold tile. simpl. apply app_nil_r. Qed.

Lemma tile_singleton {A} (k : nat) (x : A) : tile k [x] = replicate k x.
Proof. unfold tile. induction k as [|k IH]; simpl; [done | by rewrite IH]. Qed.

Lemma repeat3_batch (row : list Scalar) (b : nat) :
  repeat3 (unsqueeze0 [row]) b 1 1 = replicate b [row].
Proof.
  unfold repeat3, unsqueeze0. simpl.
  by rewrite !tile_one, tile_singleton.
Qed.

(** What a successful construction leaves in the object. *)
Lemma blind_init_inv (vfs : Z) (v : Scalar) (self : BlindVisualStream) :
  BlindVisualStream_init vfs v = Ok self ->
  (0 <= vfs)%Z
  /\ self = {| blind_super := VisualStream_init vfs;
               _bias := {| data := [replicate (Z.to_nat vfs) v];
                           requires_grad := false |} |}.
Proof.
  unfold BlindVisualStream_init, torch_full, visual_feature_size. simpl.
  case_bool_decide as Hn; simpl; [|discriminate].
  intros [= <-]. done.
Qed.

Lemma blind_forward_self (self : BlindVisualStream) (image : Tensor) :
  (BlindVisualStream_forward self image).2 = self.
Proof. reflexivity. Qed.

Lemma blind_after_calls_self (self : BlindVisualStream) (images : list Tensor) :
  blind_after_calls self images = self.
Proof.
  induction images as [|image rest IH]; simpl; [done|].
  by rewrite IH.
Qed.



End BlindProperties.

(** ** The loop over the named children *)

Section ForwardLoop.
Context `{PyWorld} `{!Libraries}.
Implicit Types (children pre post : list (string * Layer)) (acc : gmap string Tensor).

Lemma feed_app pre post (x : Tensor) : feed (pre ++ post) x = feed post (feed pre x).
Proof. unfold feed. apply foldl_app. Qed.

Lemma feed_snoc pre (name : string) (l : Layer) (x : Tensor) :
  feed (pre ++ [(name, l)]) x = call l (feed pre x).
Proof. by rewrite feed_app. Qed.

(** The loop never fails: from the second turn on [out] is bound.  It
    leaves in [out] the output of the last child and in the dictionary the
    collected stage outputs. *)
Lemma forward_loop_collect (names : list string) (image : Tensor) children :
  forall (idx : nat) (out : option Tensor) acc (x : Tensor),
    (idx = 0%nat -> x = image) ->
    (idx <> 0%nat -> out = Some x) ->
    forward_loop names image idx children (out, acc)
    = Ok (match children with [] => out | _ :: _ => Some (feed children x) end,
          collect names x children acc).
Proof.
  induction children as [|[name l] rest IH]; intros idx out acc x Hfirst Hnext; [done|].
  simpl.
  assert (Hout : (if (idx =? 0)%nat then Ok (call l image)
                  else match out with
                       | Some o => Ok (call l o)
                       | None => Raise (UnboundLocalError "out")
                       end) = Ok (call l x)).
  { destruct (Nat.eqb_spec idx 0) as [->|Hne]; [by rewrite Hfirst|by rewrite Hnext]. }
  rewrite Hout. simpl.
  rewrite (IH (S idx) _ _ (call l x)); [|done|done].
  destruct rest; done.
Qed.

Lemma collect_app names (x : Tensor) pre post acc :
  collect names x (pre ++ post) acc = collect names (feed pre x) post (collect names x pre acc).
Proof.
  revert x acc. induction pre as [|[n l] pre IH]; intros x acc; [done|].
  simpl. by rewrite IH.
Qed.

(** A key that no child of the chain bears, or that is no stage name, is
    left alone. *)
Lemma collect_lookup_other names (x : Tensor) children acc (k : string) :
  k ∉ children.*1 \/ k ∉ names ->
  collect names x children acc !! k = acc !! k.
Proof.
  revert x acc. induction children as [|[n l] rest IH]; intros x acc Hk; [done|].
  simpl. rewrite IH.
  - case_bool_decide as Hn; [|done].
    rewrite lookup_insert_ne; [done|].
    intros ->. destruct Hk as [Hk|Hk]; [|done].
    apply Hk. simpl. left.
  - destruct Hk as [Hk|Hk]; [left|by right].
    intros Hin. apply Hk. simpl. by right.
Qed.

(** The entry of a stage is the output of the last child of that name. *)
Lemma collect_lookup_stage names (x : Tensor) pre post acc (k : string) (l : Layer) :
  k ∈ names -> k ∉ post.*1 ->
  collect names x (pre ++ (k, l) :: post) acc !! k = Some (call l (feed pre x)).
Proof.
  intros Hk Hpost. rewrite collect_app. simpl.
  rewrite collect_lookup_other by (by left).
  rewrite bool_decide_eq_true_2 by done.
  by rewrite lookup_insert_eq.
Qed.

Lemma collect_dom names (x : Tensor) children acc :
  dom (collect names x children acc)
  = dom acc ∪ list_to_set (filter (.∈ names) children.*1).
Proof.
  revert x acc. induction children as [|[n l] rest IH]; intros x acc.
  - simpl. by rewrite (right_id_L ∅ (∪)).
  - simpl. rewrite IH. rewrite filter_cons. simpl.
    case_bool_decide as Hn.
    + rewrite decide_True by done. rewrite dom_insert_L, list_to_set_cons.
      by rewrite (assoc_L (∪)), (comm_L (∪) {[n]}).
    + rewrite decide_False by done. done.
Qed.

End ForwardLoop.

(** ** TorchvisionVisualStream.forward *)

Section TorchvisionForward.
Context `{PyWorld} `{!Libraries}.

Lemma lookup_set_child (name : string) (l : Layer) (cs : list (string * Layer)) :
  lookup_child name (set_child name l cs) = Some l.
Proof.
  unfold lookup_child. induction cs as [|[n l'] cs IH]; simpl.
  - by rewrite String.eqb_refl.
  - destruct (String.eqb n name) eqn:E; simpl; rewrite E; [done|apply IH].
Qed.

(** What a successful construction leaves in the object. *)
Lemma torchvision_init_inv (name : string) (vfs : Z) (pretrained : bool)
    (kwargs : Kwargs) (self : TorchvisionVisualStream) :
  TorchvisionVisualStream_init name vfs pretrained kwargs = Ok self ->
  exists ctor m,
    torchvision_models name = Some ctor
    /\ ctor pretrained true kwargs = inr m
    /\ self = {| tv_super := VisualStream_init vfs;
                 cnn := {| named_children := set_child "fc" Identity (named_children m) |};
                 _stage_names := ["layer1"; "layer2"; "layer3"; "layer4"] |}.
Proof.
  unfold TorchvisionVisualStream_init.
  destruct (torchvision_models name) as [ctor|]; simpl; [|discriminate].
  destruct (ctor pretrained true kwargs) as [e|m] eqn:Hm; simpl; [discriminate|].
  intros [= <-]. exists ctor, m. done.
Qed.

Lemma torchvision_forward_run (self : TorchvisionVisualStream) (image : Tensor) (rio : bool) :
  (TorchvisionVisualStream_forward self image rio).1
  = let d := collect (_stage_names self) image (named_children (cnn self)) ∅ in
    if rio then Ok (OutDict d)
    else t ← getitem d "layer4"; Ok (OutTensor t).
Proof.
  unfold TorchvisionVisualStream_forward. simpl.
  by rewrite (forward_loop_collect _ _ _ 0 None ∅ image).
Qed.

(** C3. With [return_intermediate_outputs=True], [forward] of a
    [TorchvisionVisualStream] whose backbone has children named layer1 to
    layer4 returns a dictionary with exactly these four keys; the children
    are run in order, the image into the first and each output into the
    next, and each key holds what the child of that name gave. *)
Theorem torchvision_forward_intermediate
    (name : string) (vfs : Z) (pretrained : bool) (kwargs : Kwargs)
    (self : TorchvisionVisualStream) (image : Tensor) :
  TorchvisionVisualStream_init name vfs pretrained kwargs = Ok self ->
  NoDup (named_children (cnn self)).*1 ->
  (forall k, k ∈ ["layer1"; "layer2"; "layer3"; "layer4"] ->
             k ∈ (named_children (cnn self)).*1) ->
  exists d,
    (TorchvisionVisualStream_forward self image true).1 = Ok (OutDict d)
    /\ dom d = list_to_set ["layer1"; "layer2"; "layer3"; "layer4"]
    /\ (forall pre k l post,
          named_children (cnn self) = pre ++ (k, l) :: post ->
          k ∈ ["layer1"; "layer2"; "layer3"; "layer4"] ->
          d !! k = Some (call l (feed pre image))).
Proof.
  intros Hinit Hnodup Hstages.
  destruct (torchvision_init_inv _ _ _ _ _ Hinit) as (ctor & m & _ & _ & Hself).
  assert (Hnames : _stage_names self = ["layer1"; "layer2"; "layer3"; "layer4"])
    by (by rewrite Hself).
  eexists. split; [by rewrite torchvision_forward_run|].
  rewrite Hnames. split.
  - rewrite collect_dom, dom_empty_L, (left_id_L ∅ (∪)).
    apply set_eq. intros k.
    rewrite !elem_of_list_to_set, list_elem_of_filter.
    split; [by intros [? _]|]. intros Hk. split; [done|by apply Hstages].
  - intros pre k l post Hsplit Hk. rewrite Hsplit.
    apply collect_lookup_stage; [done|].
    rewrite Hsplit, fmap_app, fmap_cons in Hnodup.
    apply NoDup_app in Hnodup as (_ & _ & Hpost).
    by apply NoDup_cons in Hpost as [Hpost _].
Qed.

(** C7. The constructor puts an identity module in place of the
    classification head [fc], and without [return_intermediate_outputs]
    [forward] returns the output of the stage layer4: the modules that
    come after it (the pooling and the former head) have no part in the
    value, whatever they are. *)
Theorem torchvision_head_stripped
    (name : string) (vfs : Z) (pretrained : bool) (kwargs : Kwargs)
    (self : TorchvisionVisualStream) (image : Tensor)
    (pre post : list (string * Layer)) (layer4 : Layer) :
  TorchvisionVisualStream_init name vfs pretrained kwargs = Ok self ->
  named_children (cnn self) = pre ++ ("layer4", layer4) :: post ->
  "layer4" ∉ post.*1 ->
  lookup_child "fc" (named_children (cnn self)) = Some Identity
  /\ (TorchvisionVisualStream_forward self image false).1
     = Ok (OutTensor (call layer4 (feed pre image)))
  /\ (forall post' : list (string * Layer),
        "layer4" ∉ post'.*1 ->
        (TorchvisionVisualStream_forward
           {| tv_super := tv_super self;
              cnn := {| named_children := pre ++ ("layer4", layer4) :: post' |};
              _stage_names := _stage_names self |} image false).1
        = (TorchvisionVisualStream_forward self image false).1).
Proof.
  intros Hinit Hsplit Hpost.
  destruct (torchvision_init_inv _ _ _ _ _ Hinit) as (ctor & m & _ & _ & Hself).
  assert (Hnames : _stage_names self = ["layer1"; "layer2"; "layer3"; "layer4"])
    by (by rewrite Hself).
  assert (Hin : "layer4" ∈ ["layer1"; "layer2"; "layer3"; "layer4"])
    by (rewrite !elem_of_cons; tauto).
  assert (Hrun : forall post0 : list (string * Layer),
            "layer4" ∉ post0.*1 ->
            (TorchvisionVisualStream_forward
               {| tv_super := tv_super self;
                  cnn := {| named_children := pre ++ ("layer4", layer4) :: post0 |};
                  _stage_names := _stage_names self |} image false).1
            = Ok (OutTensor (call layer4 (feed pre image)))).
  { intros post0 Hpost0. rewrite torchvision_forward_run. simpl.
    unfold getitem. rewrite Hnames.
    by rewrite (collect_lookup_stage _ _ _ _ _ _ _ Hin Hpost0). }
  assert (Hself' : (TorchvisionVisualStream_forward self image false).1
                   = Ok (OutTensor (call layer4 (feed pre image)))).
  { rewrite <- (Hrun post Hpost). rewrite <- Hsplit. by destruct self as [? []]. }
  split; [|split].
  - rewrite Hself. simpl. apply lookup_set_child.
  - done.
  - intros post' Hpost'. by rewrite Hself', Hrun.
Qed.

End TorchvisionForward.

(** ** D2BackboneVisualStream *)

Section D2Properties.
Context `{PyWorld} `{!Libraries}.

(** What a successful construction leaves in the object. *)
Lemma d2_init_inv (name : string) (vfs : Z) (pretrained : bool)
    (fs fs' : FileSystem) (self : D2BackboneVisualStream) :
  D2BackboneVisualStream_init name vfs pretrained fs = (Ok self, fs') ->
  exists m : D2Model,
    self = {| d2_super := VisualStream_init vfs;
              d2_cnn := backbone m;
              _layer4 := roi_heads_res5 m;
              d2_stage_names := ["res2"; "res3"; "res4"] |}.
Proof.
  unfold D2BackboneVisualStream_init, mbind, IO_bind.
  destruct (patch_config name pretrained fs) as [[locals|e] fs1]; [|discriminate].
  destruct (build_model name fs1) as [[attempt|e] fs2]; [|discriminate].
  destruct (restore_config pretrained locals fs2) as [[[]|e] fs3]; [|discriminate].
  destruct attempt as [m|e]; [|discriminate].
  intros [= <- <-]. by exists m.
Qed.

Lemma collect_is_Some (names : list string) (x : Tensor)
    (children : list (string * Layer)) (acc : gmap string Tensor) (k : string) :
  k ∈ names -> k ∈ children.*1 -> is_Some (collect names x children acc !! k).
Proof.
  intros Hk Hin. apply elem_of_dom. rewrite collect_dom.
  apply elem_of_union_r, elem_of_list_to_set, list_elem_of_filter. done.
Qed.

Lemma d2_forward_run (self : D2BackboneVisualStream) (image : Tensor) (rio : bool)
    (r2 r3 r4 : Tensor) :
  let children := named_children (d2_cnn self) in
  let inter := collect (d2_stage_names self) image children ∅ in
  children <> [] ->
  inter !! "res2" = Some r2 -> inter !! "res3" = Some r3 -> inter !! "res4" = Some r4 ->
  let r5 := call (_layer4 self) (feed children image) in
  let d : gmap string Tensor :=
    <["layer4" := r5]> (<["layer3" := r4]> (<["layer2" := r3]> (<["layer1" := r2]> ∅))) in
  (D2BackboneVisualStream_forward self image rio).1
  = if rio then Ok (OutDict d) else Ok (OutTensor r5).
Proof.
  intros children inter Hne H2 H3 H4 r5 d.
  unfold D2BackboneVisualStream_forward. simpl.
  rewrite (forward_loop_collect _ _ _ 0 None ∅ image) by done. simpl.
  fold children.
  assert (Hout : match children with
                 | [] => None
                 | _ :: _ => Some (feed children image)
                 end = Some (feed children image)) by (by destruct children).
  rewrite Hout. simpl. fold inter.
  unfold getitem.
  rewrite (lookup_insert_ne inter "res5" "res2") by done.
  rewrite (lookup_insert_ne inter "res5" "res3") by done.
  rewrite (lookup_insert_ne inter "res5" "res4") by done.
  rewrite H2, H3, H4. simpl.
  rewrite lookup_insert_eq. simpl.
  destruct rio; [done|]. simpl. by rewrite lookup_insert_eq.
Qed.

(** The keys of the dictionary built at the end of [forward]. *)
Lemma renamed_dom (r2 r3 r4 r5 : Tensor) :
  dom (<["layer4" := r5]> (<["layer3" := r4]> (<["layer2" := r3]>
         (<["layer1" := r2]> (∅ : gmap string Tensor)))))
  = list_to_set ["layer1"; "layer2"; "layer3"; "layer4"].
Proof.
  rewrite !dom_insert_L, dom_empty_L. simpl.
  apply set_eq. intros k.
  rewrite !elem_of_union, !elem_of_singleton, elem_of_empty. tauto.
Qed.

(** C4. Both adapters give the same access to their outputs: with
    [return_intermediate_outputs=True] each returns a dictionary whose keys
    are exactly layer1 to layer4, and without it each returns the tensor
    that dictionary holds under layer4.  For [D2BackboneVisualStream] the
    entries layer1, layer2, layer3 are the outputs of the children res2,
    res3, res4 and layer4 is the output of the res5 head fed with the
    backbone's output. *)
Theorem adapters_same_access_pattern
    (name : string) (vfs : Z) (pretrained : bool) (kwargs : Kwargs)
    (tv : TorchvisionVisualStream)
    (name' : string) (vfs' : Z) (pretrained' : bool) (fs fs' : FileSystem)
    (d2 : D2BackboneVisualStream) (image : Tensor) :
  TorchvisionVisualStream_init name vfs pretrained kwargs = Ok tv ->
  (forall k, k ∈ ["layer1"; "layer2"; "layer3"; "layer4"] ->
             k ∈ (named_children (cnn tv)).*1) ->
  D2BackboneVisualStream_init name' vfs' pretrained' fs = (Ok d2, fs') ->
  (forall k, k ∈ ["res2"; "res3"; "res4"] -> k ∈ (named_children (d2_cnn d2)).*1) ->
  (exists d t,
     (TorchvisionVisualStream_forward tv image true).1 = Ok (OutDict d)
     /\ dom d = list_to_set ["layer1"; "layer2"; "layer3"; "layer4"]
     /\ d !! "layer4" = Some t
     /\ (TorchvisionVisualStream_forward tv image false).1 = Ok (OutTensor t))
  /\ (exists d t,
     (D2BackboneVisualStream_forward d2 image true).1 = Ok (OutDict d)
     /\ dom d = list_to_set ["layer1"; "layer2"; "layer3"; "layer4"]
     /\ d !! "layer4" = Some t
     /\ (D2BackboneVisualStream_forward d2 image false).1 = Ok (OutTensor t)
     /\ t = call (_layer4 d2) (feed (named_children (d2_cnn d2)) image)
     /\ (forall pre k k' l post,
           named_children (d2_cnn d2) = pre ++ (k, l) :: post ->
           k ∉ post.*1 ->
           (k, k') ∈ [("res2", "layer1"); ("res3", "layer2"); ("res4", "layer3")] ->
           d !! k' = Some (call l (feed pre image)))).
Proof.
  intros Htv Htvc Hd2 Hd2c. split.
  - destruct (torchvision_init_inv _ _ _ _ _ Htv) as (ctor & m & _ & _ & Hself).
    assert (Hnames : _stage_names tv = ["layer1"; "layer2"; "layer3"; "layer4"])
      by (by rewrite Hself).
    assert (Hin : "layer4" ∈ ["layer1"; "layer2"; "layer3"; "layer4"])
      by (rewrite !elem_of_cons; tauto).
    destruct (collect_is_Some (_stage_names tv) image (named_children (cnn tv)) ∅ "layer4")
      as [t Ht]; [by rewrite Hnames|by apply Htvc|].
    exists (collect (_stage_names tv) image (named_children (cnn tv)) ∅), t.
    split; [by rewrite torchvision_forward_run|]. split; [|split; [done|]].
    + rewrite Hnames, collect_dom, dom_empty_L, (left_id_L ∅ (∪)).
      apply set_eq. intros k.
      rewrite !elem_of_list_to_set, list_elem_of_filter.
      split; [by intros [? _]|]. intros Hk. split; [done|by apply Htvc].
    + rewrite torchvision_forward_run. simpl. unfold getitem. by rewrite Ht.
  - destruct (d2_init_inv _ _ _ _ _ _ Hd2) as [m Hself].
    assert (Hnames : d2_stage_names d2 = ["res2"; "res3"; "res4"]) by (by rewrite Hself).
    set (children := named_children (d2_cnn d2)) in *.
    set (inter := collect (d2_stage_names d2) image children ∅).
    assert (Hstage : forall k, k ∈ ["res2"; "res3"; "res4"] -> is_Some (inter !! k)).
    { intros k Hk. apply collect_is_Some; [by rewrite Hnames|by apply Hd2c]. }
    destruct (Hstage "res2") as [r2 H2]; [rewrite !elem_of_cons; tauto|].
    destruct (Hstage "res3") as [r3 H3]; [rewrite !elem_of_cons; tauto|].
    destruct (Hstage "res4") as [r4 H4]; [rewrite !elem_of_cons; tauto|].
    assert (Hne : children <> []).
    { intros Hnil. specialize (Hd2c "res2"). rewrite Hnil in Hd2c.
      apply elem_of_nil in Hd2c; [done|]. rewrite !elem_of_cons; tauto. }
    eexists _, _.
    split; [apply (d2_forward_run d2 image true r2 r3 r4); done|].
    split; [apply renamed_dom|].
    split; [apply lookup_insert_eq|].
    split; [apply (d2_forward_run d2 image false r2 r3 r4); done|].
    split; [done|].
    intros pre k k' l post Hsplit Hpost Hk.
    assert (Hval : forall r, inter !! k = Some r -> r = call l (feed pre image)).
    { intros r Hr. unfold inter in Hr. fold children in Hsplit. rewrite Hsplit in Hr.
      rewrite collect_lookup_stage in Hr; [by injection Hr|rewrite Hnames|done].
      rewrite !elem_of_cons in Hk. rewrite !elem_of_cons.
      destruct Hk as [[= -> _]|[[= -> _]|[[= -> _]|Hk]]]; [tauto..|].
      by apply elem_of_nil in Hk. }
    rewrite !elem_of_cons in Hk.
    destruct Hk as [[= -> ->]|[[= -> ->]|[[= -> ->]|Hk]]];
      [| | |by apply elem_of_nil in Hk].
    + rewrite <- (Hval r2 H2). by simplify_map_eq.
    + rewrite <- (Hval r3 H3). by simplify_map_eq.
    + rewrite <- (Hval r4 H4). by simplify_map_eq.
Qed.

(** C9. A name that is no key of [MODEL_NAME_TO_CFG_PATH] makes the
    constructor, called with [pretrained=False], raise [KeyError]: the
    lookup fails first, the handler of the first [try] takes no
    [KeyError], and the file system is left as it was. *)
Theorem d2_init_unknown_name (name : string) (vfs : Z) (fs : FileSystem) :
  MODEL_NAME_TO_CFG_PATH !! name = None ->
  D2BackboneVisualStream_init name vfs false fs = (Raise (KeyError name), fs).
Proof.
  intros Hname.
  unfold D2BackboneVisualStream_init, patch_config, try_except, mbind, IO_bind,
    lift, getitem.
  simpl. by rewrite Hname.
Qed.

End D2Properties.

(** ** The base class *)

Section BaseProperties.
Context `{PyWorld} `{!Libraries}.

(** C8. The [visual_feature_size] property returns the size the object was
    constructed with, in the base class and in each subclass, and no
    method of any of the classes changes it. *)
Theorem visual_feature_size_fixed (n : Z) :
  visual_feature_size (VisualStream_init n) = n
  /\ (forall (v : Scalar) (self : BlindVisualStream),
        BlindVisualStream_init n v = Ok self ->
        visual_feature_size (super self) = n
        /\ (forall image,
              visual_feature_size (super (BlindVisualStream_forward self image).2) = n))
  /\ (forall name pretrained kwargs (self : TorchvisionVisualStream),
        TorchvisionVisualStream_init name n pretrained kwargs = Ok self ->
        visual_feature_size (super self) = n
        /\ (forall image rio,
              visual_feature_size
                (super (TorchvisionVisualStream_forward self image rio).2) = n)
        /\ visual_feature_size (super (detectron2_backbone_state_dict self).2) = n)
  /\ (forall name pretrained fs fs' (self : D2BackboneVisualStream),
        D2BackboneVisualStream_init name n pretrained fs = (Ok self, fs') ->
        visual_feature_size (super self) = n
        /\ (forall image rio,
              visual_feature_size
                (super (D2BackboneVisualStream_forward self image rio).2) = n)).
Proof.
  split; [done|]. split; [|split].
  - intros v self [_ ->]%blind_init_inv. done.
  - intros name pretrained kwargs self Hinit.
    destruct (torchvision_init_inv _ _ _ _ _ Hinit) as (ctor & m & _ & _ & ->). done.
  - intros name pretrained fs fs' self Hinit.
    destruct (d2_init_inv _ _ _ _ _ _ Hinit) as [m ->]. done.
Qed.

End BaseProperties.

(** ** The string operations on a few texts *)

Example replace_renames_bn :
  PyStr.replace "layer1.0.bn1.weight" "bn1" "conv1.norm" = "layer1.0.conv1.norm.weight".
Proof. reflexivity. Qed.

Example replace_does_not_overlap : PyStr.replace "aaa" "aa" "b" = "ba".
Proof. reflexivity. Qed.

Example replace_every_occurrence : PyStr.replace "a.b.a" "a" "xy" = "xy.b.xy".
Proof. reflexivity. Qed.

Example replace_empty_old : PyStr.replace "abc" "" "-" = "-a-b-c-".
Proof. reflexivity. Qed.

Example d2_name_block_parameter :
  d2_name "layer3.22.downsample.1.running_mean" = "res4.22.shortcut.norm.running_mean".
Proof. reflexivity. Qed.

Example d2_name_stem_parameter : d2_name "bn1.weight" = "stem.conv1.norm.weight".
Proof. reflexivity. Qed.

(** Outside the names of a ResNet two keys can get the same new key. *)
Example d2_name_collision : d2_name "bn1.weight" = d2_name "conv1.norm.weight".
Proof. reflexivity. Qed.

Example re_search_weights_config :
  re_search_weights Example.config_text
  = Some "detectron2://ImageNetPretrained/MSRA/R-50.pkl".
Proof. vm_compute. reflexivity. Qed.

Example re_search_weights_no_match :
  re_search_weights ("MODEL:" +:+ Example.nl +:+ "  MASK_ON: False" +:+ Example.nl) = None.
Proof. vm_compute. reflexivity. Qed.

(** ** Facts about the string operations *)

Section StringFacts.
Implicit Types (s p old new a b w : string) (c : ascii).

Lemma string_app_cons c s1 s2 : String c s1 +:+ s2 = String c (s1 +:+ s2).
Proof. reflexivity. Qed.

Lemma string_app_nil_l s : "" +:+ s = s.
Proof. reflexivity. Qed.

Lemma string_app_assoc s1 s2 s3 : (s1 +:+ s2) +:+ s3 = s1 +:+ (s2 +:+ s3).
Proof.
  induction s1 as [|c s1 IH]; [done|].
  by rewrite !string_app_cons, IH.
Qed.

Lemma string_app_nil_r s : s +:+ "" = s.
Proof.
  induction s as [|c s IH]; [done|].
  by rewrite string_app_cons, IH.
Qed.

Lemma startswith_app p s : PyStr.startswith (p +:+ s) p = true.
Proof.
  induction p as [|c p IH]; [done|].
  rewrite string_app_cons. simpl. by rewrite Ascii.eqb_refl.
Qed.

Lemma startswith_split s p :
  PyStr.startswith s p = true -> s = p +:+ PyStr.drop (String.length p) s.
Proof.
  revert s. induction p as [|c p IH]; intros s; simpl; [by destruct s|].
  destruct s as [|c' s]; [done|].
  destruct (Ascii.eqb_spec c c') as [->|]; [|done].
  intros Hs. rewrite string_app_cons. simpl. by rewrite <- (IH s Hs).
Qed.

Lemma drop_app p s : PyStr.drop (String.length p) (p +:+ s) = s.
Proof.
  induction p as [|c p IH]; [done|].
  rewrite string_app_cons. simpl. done.
Qed.

Lemma drop_empty (k : nat) : PyStr.drop k "" = "".
Proof. by destruct k. Qed.

Lemma replace_go_skip old new s :
  forall k : nat,
    PyStr.replace_go old new k s = PyStr.replace_go old new 0 (PyStr.drop k s).
Proof.
  induction s as [|c s IH]; intros [|k]; simpl; done.
Qed.

(** One turn of the scan, with the skipping written as a [drop]. *)
Lemma replace_go_step old new c s :
  old <> "" ->
  PyStr.replace_go old new 0 (String c s)
  = if PyStr.startswith (String c s) old
    then new +:+ PyStr.replace_go old new 0 (PyStr.drop (String.length old) (String c s))
    else String c (PyStr.replace_go old new 0 s).
Proof.
  intros Hold. destruct old as [|o old']; [done|].
  cbn [PyStr.replace_go].
  destruct (PyStr.startswith (String c s) (String o old')); [|done].
  rewrite replace_go_skip. simpl. by rewrite Nat.sub_0_r.
Qed.

Lemma occurrences_drop_le s old (k : nat) :
  (PyStr.occurrences (PyStr.drop k s) old <= PyStr.occurrences s old)%nat.
Proof.
  revert k. induction s as [|c s IH]; intros [|k]; simpl; try lia.
  specialize (IH k). lia.
Qed.

Lemma occurrences_app_ge a old b :
  old <> "" -> (1 <= PyStr.occurrences (a +:+ old +:+ b) old)%nat.
Proof.
  intros Hold. induction a as [|c a IH].
  - destruct old as [|o old']; [done|].
    change ("" +:+ String o old' +:+ b) with (String o (old' +:+ b)).
    cbn [PyStr.occurrences].
    change (String o (old' +:+ b)) with (String o old' +:+ b).
    rewrite startswith_app. lia.
  - change (String c a +:+ old +:+ b) with (String c (a +:+ old +:+ b)).
    cbn [PyStr.occurrences]. lia.
Qed.

(** Without an occurrence the scan copies the text. *)
Lemma replace_go_none old new s :
  old <> "" -> PyStr.occurrences s old = 0%nat -> PyStr.replace_go old new 0 s = s.
Proof.
  intros Hold. induction s as [|c s IH]; [done|].
  cbn [PyStr.occurrences]. intros Hocc.
  rewrite replace_go_step by done.
  destruct (PyStr.startswith (String c s) old); [lia|].
  rewrite IH; [done|lia].
Qed.

(** With a single occurrence the scan replaces that one. *)
Lemma replace_go_unique old new a b :
  old <> "" ->
  PyStr.occurrences (a +:+ old +:+ b) old = 1%nat ->
  PyStr.replace_go old new 0 (a +:+ old +:+ b) = a +:+ new +:+ b.
Proof.
  intros Hold. induction a as [|c a IH]; intros Hocc.
  - rewrite string_app_nil_l in *.
    pose proof (startswith_app old b) as Hsw.
    pose proof (drop_app old b) as Hdrop.
    destruct (old +:+ b) as [|c t] eqn:E; [by destruct old|].
    rewrite replace_go_step by done. rewrite Hsw, Hdrop.
    cbn [PyStr.occurrences] in Hocc. rewrite Hsw in Hocc.
    rewrite replace_go_none; [done|done|].
    destruct old as [|o old']; [done|]. simpl in Hdrop.
    pose proof (occurrences_drop_le t (String o old') (String.length old')) as Hle.
    rewrite Hdrop in Hle. lia.
  - change (String c a +:+ old +:+ b) with (String c (a +:+ old +:+ b)) in *.
    cbn [PyStr.occurrences] in Hocc.
    pose proof (occurrences_app_ge a old b Hold) as Hge.
    rewrite replace_go_step by done.
    destruct (PyStr.startswith (String c (a +:+ old +:+ b)) old); [lia|].
    rewrite IH by lia. done.
Qed.

Lemma replace_unique s old new a b :
  old <> "" -> s = a +:+ old +:+ b -> PyStr.occurrences s old = 1%nat ->
  PyStr.replace s old new = a +:+ new +:+ b.
Proof.
  intros Hold -> Hocc. unfold PyStr.replace.
  destruct old as [|o old']; [done|]. by apply replace_go_unique.
Qed.

Lemma replace_empty_by_empty s : PyStr.replace s "" "" = s.
Proof.
  unfold PyStr.replace. induction s as [|c s IH]; [done|].
  simpl. by rewrite string_app_nil_l, IH.
Qed.

Lemma occurrences_empty s : PyStr.occurrences s "" = String.length s.
Proof. induction s as [|c s IH]; simpl; [done|by rewrite IH]. Qed.

Lemma length_drop_le s (k : nat) : (String.length (PyStr.drop k s) <= String.length s)%nat.
Proof.
  revert k. induction s as [|c s IH]; intros [|k]; simpl; try lia.
  specialize (IH k). lia.
Qed.

(** Replacing a text by itself changes nothing. *)
Lemma replace_go_same old s : old <> "" -> PyStr.replace_go old old 0 s = s.
Proof.
  intros Hold.
  assert (Hn : forall (n : nat) s, (String.length s <= n)%nat ->
                 PyStr.replace_go old old 0 s = s).
  { clear s. induction n as [|n IH]; intros [|c t] Hlen; simpl in Hlen; try done; try lia.
    rewrite replace_go_step by done.
    destruct (PyStr.startswith (String c t) old) eqn:Hsw.
    - rewrite IH; [by rewrite <- startswith_split|].
      destruct old as [|o old']; [done|]. simpl.
      pose proof (length_drop_le t (String.length old')). lia.
    - rewrite IH; [done|lia]. }
  by apply (Hn (String.length s)).
Qed.

Lemma replace_same s old : old <> "" -> PyStr.replace s old old = s.
Proof.
  intros Hold. unfold PyStr.replace. destruct old; [done|].
  by apply replace_go_same.
Qed.

End StringFacts.

(** ** The config file patch of D2BackboneVisualStream *)

Section ConfigPatch.
Context `{PyWorld} `{!Libraries}.
Implicit Types (s w l : string).

Lemma until_newline_sound s l :
  until_newline s = Some l -> exists post, s = l +:+ String newline post.
Proof.
  revert l. induction s as [|c s IH]; intros l; simpl; [done|].
  destruct (Ascii.eqb_spec c newline) as [->|Hc].
  - intros [= <-]. by exists s.
  - destruct (until_newline s) as [l'|]; simpl; [|done].
    intros [= <-]. destruct (IH l' eq_refl) as [post ->].
    by exists post.
Qed.

Lemma strip_quote_sound l w : strip_quote l = Some w -> l = w +:+ dquote.
Proof.
  revert w. induction l as [|c l IH]; intros w; [done|].
  cbn [strip_quote]. destruct l as [|c' l'].
  - destruct (Ascii.eqb_spec c (ascii_of_nat 34)) as [->|]; [|done].
    by intros [= <-].
  - destruct (strip_quote (String c' l')) as [w'|]; simpl; [|done].
    intros [= <-]. by rewrite (IH w' eq_refl).
Qed.

(** A match of the pattern shows the line it was found on. *)
Lemma match_weights_sound s w :
  match_weights s = Some w ->
  exists post, s = ("WEIGHTS: " +:+ dquote) +:+ w +:+ dquote +:+ String newline post.
Proof.
  unfold match_weights.
  destruct (PyStr.startswith s ("WEIGHTS: " +:+ dquote)) eqn:Hsw; [|done].
  apply startswith_split in Hsw.
  change (String.length ("WEIGHTS: " +:+ dquote)) with 10%nat in Hsw.
  destruct (until_newline (PyStr.drop 10 s)) as [l|] eqn:Hl; simpl; [|done].
  intros Hw. apply strip_quote_sound in Hw as ->.
  apply until_newline_sound in Hl as [post Hpost].
  exists post. rewrite Hsw at 1. rewrite Hpost.
  by rewrite (string_app_assoc w).
Qed.

Lemma re_search_weights_sound s w :
  re_search_weights s = Some w ->
  exists pre post,
    s = pre +:+ ("WEIGHTS: " +:+ dquote) +:+ w +:+ dquote +:+ String newline post.
Proof.
  induction s as [|c s IH].
  - done.
  - cbn [re_search_weights]. destruct (match_weights (String c s)) eqn:Hm.
    + intros [= ->]. apply match_weights_sound in Hm as [post Hpost].
      by exists "", post.
    + intros Hs. destruct (IH Hs) as (pre & post & ->).
      by exists (String c pre), post.
Qed.

(** The first [try] block on a config file with a WEIGHTS line. *)
Lemma patch_config_run (name cfg contents w : string) (fs : FileSystem) :
  let path := resource_filename "detectron2.model_zoo" (path_join "configs" cfg) in
  MODEL_NAME_TO_CFG_PATH !! name = Some cfg ->
  fs !! path = Some contents ->
  re_search_weights contents = Some w ->
  patch_config name false fs
  = (Ok (Some (path, w)), <[path := PyStr.replace contents w ""]> fs).
Proof.
  intros path Hname Hfile Hre.
  unfold patch_config, try_except, mbind, IO_bind, lift, getitem, read_file,
    write_file, mret, IO_ret.
  simpl. rewrite Hname. fold path. rewrite Hfile, Hre. done.
Qed.

(** The second [try] block: an exception that derives from [Exception] is
    kept for later, any other one leaves the constructor at once. *)
Lemma build_model_run (name cfg : string) (fs : FileSystem) :
  MODEL_NAME_TO_CFG_PATH !! name = Some cfg ->
  build_model name fs
  = match d2mz_get cfg false fs with
    | inr m => (Ok (inl m), fs)
    | inl e =>
        if is_Exception e then (Ok (inr (Foreign e)), fs) else (Raise (Foreign e), fs)
    end.
Proof.
  intros Hname.
  unfold build_model, try_except, mbind, IO_bind, lift, getitem, model_zoo_get,
    mret, IO_ret.
  rewrite Hname. destruct (d2mz_get cfg false fs) as [e|m]; [|done].
  simpl. by destruct (is_Exception e).
Qed.

Lemma restore_config_run (path w text : string) (fs : FileSystem) :
  fs !! path = Some text ->
  restore_config false (Some (path, w)) fs
  = (Ok (),
     <[path := PyStr.replace text ("WEIGHTS: " +:+ dquote +:+ dquote)
                 ("WEIGHTS: " +:+ dquote +:+ w +:+ dquote)]> fs).
Proof.
  intros Hfile.
  unfold restore_config, mbind, IO_bind, read_file, write_file.
  simpl. by rewrite Hfile.
Qed.

(** The text of the patched file, and the revert giving back the original:
    either the value is empty already, or it stands nowhere else in the
    file and the patched file has a single empty WEIGHTS entry. *)
Lemma patch_then_restore (contents w : string) :
  re_search_weights contents = Some w ->
  w = "" \/
    (PyStr.occurrences contents w = 1%nat
     /\ PyStr.occurrences (PyStr.replace contents w "")
          ("WEIGHTS: " +:+ dquote +:+ dquote) = 1%nat) ->
  (exists pre post,
     contents = pre +:+ ("WEIGHTS: " +:+ dquote) +:+ w +:+ dquote +:+ String newline post
     /\ PyStr.replace contents w ""
        = pre +:+ ("WEIGHTS: " +:+ dquote) +:+ dquote +:+ String newline post)
  /\ PyStr.replace (PyStr.replace contents w "")
       ("WEIGHTS: " +:+ dquote +:+ dquote) ("WEIGHTS: " +:+ dquote +:+ w +:+ dquote)
     = contents.
Proof.
  intros Hre Hclean.
  destruct (re_search_weights_sound _ _ Hre) as (pre & post & Hc).
  destruct Hclean as [->|[Hw Hq]].
  - rewrite replace_empty_by_empty. split.
    + exists pre, post. split; [done|]. by rewrite Hc at 1.
    + by apply replace_same.
  - assert (Hne : w <> "").
    { intros ->. rewrite occurrences_empty in Hw.
      destruct contents as [|c [|c' t]]; simpl in Hw; try lia.
      destruct pre as [|c1 [|c2 pre]]; cbv in Hc; discriminate. }
    assert (Hpatched : PyStr.replace contents w ""
              = pre +:+ ("WEIGHTS: " +:+ dquote) +:+ dquote +:+ String newline post).
    { rewrite (replace_unique contents w "" (pre +:+ "WEIGHTS: " +:+ dquote)
                 (dquote +:+ String newline post)); [|done| |done].
      - rewrite string_app_nil_l. apply string_app_assoc.
      - rewrite Hc. symmetry. apply string_app_assoc. }
    split; [by exists pre, post|].
    rewrite Hpatched in *.
    rewrite (replace_unique _ ("WEIGHTS: " +:+ dquote +:+ dquote)
               ("WEIGHTS: " +:+ dquote +:+ w +:+ dquote) pre (String newline post));
      [|done|done|done].
    rewrite Hc. f_equal.
    rewrite <- (string_app_assoc w dquote (String newline post)).
    reflexivity.
Qed.


End ConfigPatch.

(** ** Replacing inside a text put together from parts *)

Section ReplaceParts.
Implicit Types (s a b x old new idx : string) (c : ascii).

Lemma string_length_app a b : String.length (a +:+ b) = (String.length a + String.length b)%nat.
Proof.
  induction a as [|c a IH]; [done|].
  rewrite string_app_cons. simpl. by rewrite IH.
Qed.

(** When no end of [s] begins an occurrence of [old] that runs past it,
    what follows [s] does not matter for an occurrence at its start. *)
Lemma startswith_app_closed old : forall s x,
  ((String.length s <? String.length old)%nat && PyStr.startswith old s = false) ->
  PyStr.startswith (s +:+ x) old = PyStr.startswith s old.
Proof.
  induction old as [|o old IH]; intros s x Hs; [done|].
  destruct s as [|c s]; [done|].
  rewrite string_app_cons. simpl.
  destruct (Ascii.eqb_spec o c) as [->|Hne]; [|done].
  apply IH. simpl in Hs. rewrite Ascii.eqb_refl in Hs. exact Hs.
Qed.

Lemma startswith_length s old :
  PyStr.startswith s old = true -> (String.length old <= String.length s)%nat.
Proof.
  revert s. induction old as [|o old IH]; intros s; simpl; [lia|].
  destruct s as [|c s]; [done|].
  destruct (Ascii.eqb o c); [|done].
  intros Hs. specialize (IH s Hs). simpl. lia.
Qed.

(** The scan of [a +:+ x] is the scan of [a] followed by the scan of [x],
    when no occurrence of [old] lies across the end of [a]. *)
Lemma replace_go_app old new x : forall a (k : nat),
  old <> "" ->
  Check.straddles a old = false ->
  (k <= String.length a)%nat ->
  PyStr.replace_go old new k (a +:+ x)
  = PyStr.replace_go old new k a +:+ PyStr.replace_go old new 0 x.
Proof.
  induction a as [|c a IH]; intros k Hold Hst Hk.
  - simpl in Hk. assert (k = 0%nat) as -> by lia. done.
  - unfold Check.straddles in Hst. cbn [PyStr.suffixes existsb] in Hst.
    apply orb_false_iff in Hst as [Hhere Hst].
    rewrite string_app_cons. destruct k as [|k].
    + cbn [PyStr.replace_go].
      change (String c (a +:+ x)) with (String c a +:+ x).
      rewrite (startswith_app_closed old (String c a) x Hhere).
      destruct (PyStr.startswith (String c a) old) eqn:Hsw.
      * apply startswith_length in Hsw. simpl in Hsw.
        rewrite IH; [|done|done|lia].
        by rewrite string_app_assoc.
      * rewrite IH; [|done|done|lia]. done.
    + cbn [PyStr.replace_go]. apply IH; [done|done|simpl in Hk; lia].
Qed.

(** Digits stay where they are when [old] begins with no digit. *)
Lemma replace_go_digits old new x idx :
  Check.starts_with_non_digit old = true ->
  PyStr.all_chars PyStr.is_digit idx = true ->
  PyStr.replace_go old new 0 (idx +:+ x) = idx +:+ PyStr.replace_go old new 0 x.
Proof.
  intros Hold. destruct old as [|o old']; [done|]. simpl in Hold.
  induction idx as [|c idx IH]; intros Hidx; [done|].
  simpl in Hidx. apply andb_true_iff in Hidx as [Hc Hidx].
  rewrite !string_app_cons. rewrite replace_go_step by done.
  cbn [PyStr.startswith].
  destruct (Ascii.eqb_spec o c) as [->|Hne].
  - by rewrite Hc in Hold.
  - by rewrite IH.
Qed.

Lemma replace_parts a idx b old new :
  Check.straddles a old = false ->
  Check.starts_with_non_digit old = true ->
  PyStr.all_chars PyStr.is_digit idx = true ->
  PyStr.replace (a +:+ idx +:+ b) old new
  = PyStr.replace a old new +:+ idx +:+ PyStr.replace b old new.
Proof.
  intros Hst Hold Hidx. unfold PyStr.replace.
  destruct old as [|o old']; [done|].
  rewrite replace_go_app; [|done|done|lia].
  by rewrite replace_go_digits.
Qed.

(** The whole table applied to a text of three parts. *)
Lemma apply_mapping_parts idx (mapping : list (string * string)) : forall a b,
  Check.splits_along mapping a = true ->
  PyStr.all_chars PyStr.is_digit idx = true ->
  apply_mapping mapping (a +:+ idx +:+ b)
  = apply_mapping mapping a +:+ idx +:+ apply_mapping mapping b.
Proof.
  induction mapping as [|[old new] rest IH]; intros a b Hok Hidx; [done|].
  cbn [Check.splits_along] in Hok.
  apply andb_true_iff in Hok as [Hok Hrest].
  apply andb_true_iff in Hok as [Hst Hold].
  apply negb_true_iff in Hst.
  unfold apply_mapping. cbn [foldl].
  rewrite replace_parts by done.
  by apply IH.
Qed.

(** A run of digits in front of something else is read off in one way. *)
Lemma digits_prefix_unique idx1 : forall idx2 b1 b2,
  PyStr.all_chars PyStr.is_digit idx1 = true ->
  PyStr.all_chars PyStr.is_digit idx2 = true ->
  Check.starts_with_non_digit b1 = true ->
  Check.starts_with_non_digit b2 = true ->
  idx1 +:+ b1 = idx2 +:+ b2 -> idx1 = idx2 /\ b1 = b2.
Proof.
  induction idx1 as [|c1 idx1 IH]; intros [|c2 idx2] b1 b2 H1 H2 Hb1 Hb2 Heq.
  - done.
  - rewrite string_app_nil_l, string_app_cons in Heq. subst b1.
    simpl in Hb1, H2. apply andb_true_iff in H2 as [H2 _]. by rewrite H2 in Hb1.
  - rewrite string_app_nil_l, string_app_cons in Heq. subst b2.
    simpl in Hb2, H1. apply andb_true_iff in H1 as [H1 _]. by rewrite H1 in Hb2.
  - rewrite !string_app_cons in Heq. injection Heq as -> Heq.
    simpl in H1, H2.
    apply andb_true_iff in H1 as [_ H1]. apply andb_true_iff in H2 as [_ H2].
    destruct (IH idx2 b1 b2 H1 H2 Hb1 Hb2 Heq) as [-> ->]. done.
Qed.

(** Two texts of the same length in front are compared part by part. *)
Lemma app_same_length_inj a1 : forall a2 b1 b2,
  String.length a1 = String.length a2 ->
  a1 +:+ b1 = a2 +:+ b2 -> a1 = a2 /\ b1 = b2.
Proof.
  induction a1 as [|c1 a1 IH]; intros [|c2 a2] b1 b2 Hlen Heq; try done.
  rewrite !string_app_cons in Heq. injection Heq as -> Heq.
  simpl in Hlen. destruct (IH a2 b1 b2) as [-> ->]; [lia|done|done].
Qed.

End ReplaceParts.

(** ** The new keys of the ResNet parameters *)

Section ResNetKeys.
Implicit Types (s k q idx stage : string).

Lemma startswith_app_l s p x :
  PyStr.startswith s p = true -> PyStr.startswith (s +:+ x) p = true.
Proof.
  revert s. induction p as [|c p IH]; intros s; [done|].
  destruct s as [|c' s]; [done|].
  rewrite string_app_cons. simpl.
  destruct (Ascii.eqb c c'); [apply IH|done].
Qed.

Lemma injective_on_spec (f : string -> string) (l : list string) x y :
  Check.injective_on f l = true -> x ∈ l -> y ∈ l -> f x = f y -> x = y.
Proof.
  unfold Check.injective_on. rewrite forallb_forall.
  intros Hall Hx%list_elem_of_In Hy%list_elem_of_In Hf.
  specialize (Hall x Hx). rewrite forallb_forall in Hall.
  specialize (Hall y Hy). rewrite Hf, String.eqb_refl in Hall.
  by apply String.eqb_eq.
Qed.

Lemma split_digits_sound s : forall idx rest,
  ResNet.split_digits s = (idx, rest) ->
  s = idx +:+ rest /\ PyStr.all_chars PyStr.is_digit idx = true.
Proof.
  induction s as [|c s IH]; intros idx rest; simpl.
  - by intros [= <- <-].
  - destruct (PyStr.is_digit c) eqn:Hc.
    + destruct (ResNet.split_digits s) as [d r].
      intros [= <- <-]. destruct (IH d r eq_refl) as [-> Hd].
      split; [done|]. simpl. by rewrite Hc.
    + by intros [= <- <-].
Qed.

(** A block key is a stage, the number of the block and a parameter. *)
Lemma is_block_key_sound k :
  ResNet.is_block_key k = true ->
  exists stage idx q,
    stage ∈ ResNet.stage_prefixes /\ q ∈ ResNet.block_keys
    /\ PyStr.all_chars PyStr.is_digit idx = true
    /\ k = stage +:+ idx +:+ "." +:+ q.
Proof.
  unfold ResNet.is_block_key. rewrite existsb_exists.
  intros (stage & Hstage & Hk).
  apply andb_true_iff in Hk as [Hsw Hk].
  apply startswith_split in Hsw.
  destruct (ResNet.split_digits (PyStr.drop (String.length stage) k))
    as [idx rest] eqn:Hsplit.
  apply andb_true_iff in Hk as [_ Hq].
  apply existsb_exists in Hq as (q & Hq & Hrest).
  apply String.eqb_eq in Hrest.
  apply split_digits_sound in Hsplit as [Hdrop Hidx].
  exists stage, idx, q.
  split; [by apply list_elem_of_In|]. split; [by apply list_elem_of_In|].
  split; [done|]. by rewrite Hsw, Hdrop, Hrest at 1.
Qed.

(** What the table does to the fixed parts of the keys, by evaluation. *)
Lemma stages_split :
  forallb (Check.splits_along DETECTRON2_RENAME_MAPPING) ResNet.stage_prefixes = true.
Proof. vm_compute. reflexivity. Qed.

Lemma stages_become_res :
  forallb (fun a => PyStr.startswith (rename_substrings a) "res"
                    && (String.length (rename_substrings a) =? 5)%nat)
    ResNet.stage_prefixes = true.
Proof. vm_compute. reflexivity. Qed.

Lemma stages_injective : Check.injective_on rename_substrings ResNet.stage_prefixes = true.
Proof. vm_compute. reflexivity. Qed.

Lemma parameters_keep_dot :
  forallb (fun q => Check.starts_with_non_digit (rename_substrings ("." +:+ q)))
    ResNet.block_keys = true.
Proof. vm_compute. reflexivity. Qed.

Lemma parameters_injective :
  Check.injective_on (fun q => rename_substrings ("." +:+ q)) ResNet.block_keys = true.
Proof. vm_compute. reflexivity. Qed.

Lemma stem_gets_prefix :
  forallb (fun k => negb (PyStr.startswith (d2_name k) "res")) ResNet.stem_keys = true.
Proof. vm_compute. reflexivity. Qed.

Lemma stem_injective : Check.injective_on d2_name ResNet.stem_keys = true.
Proof. vm_compute. reflexivity. Qed.

Lemma forallb_elem {A} (f : A -> bool) (l : list A) (x : A) :
  forallb f l = true -> x ∈ l -> f x = true.
Proof. rewrite forallb_forall. intros Hall Hx%list_elem_of_In. by apply Hall. Qed.

(** The new key of a block parameter: the stage renamed, the number of the
    block as it was, the parameter renamed; no stem prefix. *)
Lemma d2_name_block stage idx q :
  stage ∈ ResNet.stage_prefixes ->
  PyStr.all_chars PyStr.is_digit idx = true ->
  d2_name (stage +:+ idx +:+ "." +:+ q)
  = rename_substrings stage +:+ idx +:+ rename_substrings ("." +:+ q)
  /\ PyStr.startswith (d2_name (stage +:+ idx +:+ "." +:+ q)) "res" = true.
Proof.
  intros Hstage Hidx.
  pose proof (forallb_elem _ _ _ stages_split Hstage) as Hsplit.
  pose proof (forallb_elem _ _ _ stages_become_res Hstage) as Hres.
  apply andb_true_iff in Hres as [Hres _].
  assert (Hparts : rename_substrings (stage +:+ idx +:+ "." +:+ q)
            = rename_substrings stage +:+ idx +:+ rename_substrings ("." +:+ q))
    by (by apply apply_mapping_parts).
  assert (Hsw : PyStr.startswith (rename_substrings (stage +:+ idx +:+ "." +:+ q)) "res" = true)
    by (rewrite Hparts; by apply startswith_app_l).
  unfold d2_name. cbv zeta. rewrite Hsw. cbn [negb]. done.
Qed.

(** On the parameter names of a ResNet no two keys get the same new key. *)
Lemma d2_name_injective k1 k2 :
  ResNet.is_resnet_key k1 = true -> ResNet.is_resnet_key k2 = true ->
  d2_name k1 = d2_name k2 -> k1 = k2.
Proof.
  unfold ResNet.is_resnet_key. intros H1 H2 Heq.
  apply orb_true_iff in H1 as [H1|H1]; apply orb_true_iff in H2 as [H2|H2].
  - apply existsb_exists in H1 as (x1 & Hx1 & <-%String.eqb_eq).
    apply existsb_exists in H2 as (x2 & Hx2 & <-%String.eqb_eq).
    apply (injective_on_spec d2_name ResNet.stem_keys); auto using stem_injective;
      by apply list_elem_of_In.
  - apply existsb_exists in H1 as (x1 & Hx1%list_elem_of_In & <-%String.eqb_eq).
    apply is_block_key_sound in H2 as (stage & idx & q & Hs & _ & Hidx & ->).
    pose proof (forallb_elem _ _ _ stem_gets_prefix Hx1) as Hstem.
    destruct (d2_name_block stage idx q Hs Hidx) as [_ Hres].
    cbv beta in Hstem. apply negb_true_iff in Hstem. congruence.
  - apply existsb_exists in H2 as (x2 & Hx2%list_elem_of_In & <-%String.eqb_eq).
    apply is_block_key_sound in H1 as (stage & idx & q & Hs & _ & Hidx & ->).
    pose proof (forallb_elem _ _ _ stem_gets_prefix Hx2) as Hstem.
    destruct (d2_name_block stage idx q Hs Hidx) as [_ Hres].
    cbv beta in Hstem. apply negb_true_iff in Hstem. congruence.
  - apply is_block_key_sound in H1 as (stage1 & idx1 & q1 & Hs1 & Hq1 & Hidx1 & ->).
    apply is_block_key_sound in H2 as (stage2 & idx2 & q2 & Hs2 & Hq2 & Hidx2 & ->).
    destruct (d2_name_block stage1 idx1 q1 Hs1 Hidx1) as [E1 _].
    destruct (d2_name_block stage2 idx2 q2 Hs2 Hidx2) as [E2 _].
    rewrite E1, E2 in Heq.
    pose proof (forallb_elem _ _ _ stages_become_res Hs1) as [_ L1%Nat.eqb_eq]%andb_true_iff.
    pose proof (forallb_elem _ _ _ stages_become_res Hs2) as [_ L2%Nat.eqb_eq]%andb_true_iff.
    apply app_same_length_inj in Heq as [Hstage Heq]; [|lia].
    apply (injective_on_spec _ _ _ _ stages_injective Hs1 Hs2) in Hstage as ->.
    apply digits_prefix_unique in Heq as [-> Hq]; [|done|done|..].
    + by apply (injective_on_spec _ _ _ _ parameters_injective Hq1 Hq2) in Hq as ->.
    + by apply (forallb_elem _ _ _ parameters_keep_dot).
    + by apply (forallb_elem _ _ _ parameters_keep_dot).
Qed.

End ResNetKeys.

(** ** TorchvisionVisualStream.detectron2_backbone_state_dict *)

Section RenamedStateDict.
Context `{PyWorld} `{!Libraries}.
Implicit Types (items : list (string * Tensor)) (d : gmap string Tensor).

Lemma fill_cons (name : string) (param : Tensor) items d :
  fill d ((name, param) :: items) = fill (<[d2_name name := param]> d) items.
Proof. reflexivity. Qed.

Lemma fill_app items1 items2 d : fill d (items1 ++ items2) = fill (fill d items1) items2.
Proof. unfold fill. apply foldl_app. Qed.

(** An entry of the filled dictionary was there before or comes from an
    item, under the new key of that item. *)
Lemma fill_lookup_Some items : forall d (k : string) (t : Tensor),
  fill d items !! k = Some t ->
  d !! k = Some t \/ exists name, (name, t) ∈ items /\ k = d2_name name.
Proof.
  induction items as [|[n p] rest IH]; intros d k t; simpl; [by left|].
  intros [Hd|(name & Hin & ->)]%IH.
  - destruct (decide (d2_name n = k)) as [<-|Hne].
    + rewrite lookup_insert_eq in Hd. injection Hd as ->.
      right. exists n. split; [left|done].
    + rewrite lookup_insert_ne in Hd by done. by left.
  - right. exists name. split; [by right|done].
Qed.

(** An entry stays when every later item under the same new key carries
    the same tensor. *)
Lemma fill_lookup_keep items : forall d (k : string) (t : Tensor),
  d !! k = Some t ->
  (forall name' t', (name', t') ∈ items -> d2_name name' = k -> t' = t) ->
  fill d items !! k = Some t.
Proof.
  induction items as [|[n p] rest IH]; intros d k t Hd Hsame; simpl; [done|].
  apply IH.
  - destruct (decide (d2_name n = k)) as [<-|Hne].
    + rewrite lookup_insert_eq. f_equal. apply (Hsame n p); [left|done].
    + by rewrite lookup_insert_ne.
  - intros name' t' Hin. apply Hsame. by right.
Qed.

Lemma fill_lookup_item items d (name : string) (t : Tensor) :
  (name, t) ∈ items ->
  (forall name' t', (name', t') ∈ items -> d2_name name' = d2_name name -> t' = t) ->
  fill d items !! d2_name name = Some t.
Proof.
  intros (pre & post & ->)%list_elem_of_split Hsame.
  rewrite fill_app, fill_cons. apply fill_lookup_keep.
  - apply lookup_insert_eq.
  - intros name' t' Hin. apply Hsame.
    apply elem_of_app. right. by right.
Qed.

Lemma fill_dom items : forall d,
  dom (fill d items) = dom d ∪ list_to_set (d2_name <$> items.*1).
Proof.
  induction items as [|[n p] rest IH]; intros d.
  - simpl. by rewrite (right_id_L ∅ (∪)).
  - rewrite fill_cons, IH, dom_insert_L. simpl. by rewrite (assoc_L (∪)), (comm_L (∪) {[d2_name n]}).
Qed.

(** With new keys that differ from each other and from what is there, the
    dictionary grows by one entry per item. *)
Lemma fill_size items : forall d,
  NoDup (d2_name <$> items.*1) ->
  (forall k, k ∈ d2_name <$> items.*1 -> d !! k = None) ->
  size (fill d items) = (size d + length items)%nat.
Proof.
  induction items as [|[n p] rest IH]; intros d Hnd Hfresh; [simpl; lia|].
  rewrite fmap_cons in Hnd. simpl in Hnd. apply NoDup_cons in Hnd as [Hn Hnd].
  rewrite fill_cons, IH; [|done|]; simpl.
  - rewrite map_size_insert_None; [lia|]. apply Hfresh. simpl. left.
  - intros k Hk. rewrite lookup_insert_ne.
    + apply Hfresh. simpl. by right.
    + intros <-. done.
Qed.

(** C1. The [model] entry of the returned checkpoint is the state
    dictionary of the backbone under new keys: a key is renamed by the nine
    replacements of the table, in the order of the table, and gets the
    prefix [stem.] unless the result starts with [res]; the keys of
    [model] are exactly these new keys, every tensor of [model] is the
    tensor of a parameter of the backbone under its new key, and a
    parameter is found under its new key as long as no other parameter
    with the same new key carries another tensor. *)
Theorem d2_state_dict_renamed (self : TorchvisionVisualStream) :
  let sd := state_dict (cnn self) in
  let ckpt := (detectron2_backbone_state_dict self).1 in
  (forall name,
     let renamed :=
       PyStr.replace (PyStr.replace (PyStr.replace (PyStr.replace (PyStr.replace
         (PyStr.replace (PyStr.replace (PyStr.replace (PyStr.replace name
           "layer1" "res2") "layer2" "res3") "layer3" "res4") "layer4" "res5")
           "bn1" "conv1.norm") "bn2" "conv2.norm") "bn3" "conv3.norm")
           "downsample.0" "shortcut") "downsample.1" "shortcut.norm" in
     d2_name name
     = if PyStr.startswith renamed "res" then renamed else "stem." +:+ renamed)
  /\ __author__ ckpt = "Karan Desai" /\ matching_heuristics ckpt = true
  /\ dom (model ckpt) = list_to_set (d2_name <$> sd.*1)
  /\ (forall k t, model ckpt !! k = Some t ->
        exists name, (name, t) ∈ sd /\ k = d2_name name)
  /\ (forall name t,
        (name, t) ∈ sd ->
        (forall name' t', (name', t') ∈ sd -> d2_name name' = d2_name name -> t' = t) ->
        model ckpt !! d2_name name = Some t).
Proof.
  intros sd ckpt. split; [|split; [done|split; [done|split; [|split]]]].
  - intros name renamed. subst renamed.
    unfold d2_name, apply_mapping, DETECTRON2_RENAME_MAPPING.
    cbn [foldl]. cbv zeta.
    by destruct (PyStr.startswith _ "res").
  - unfold ckpt. simpl. unfold rename_all.
    by rewrite fill_dom, dom_empty_L, (left_id_L ∅ (∪)).
  - intros k t Hk. unfold ckpt in Hk. simpl in Hk. unfold rename_all in Hk.
    apply fill_lookup_Some in Hk as [Hk|Hk]; [|done].
    by rewrite lookup_empty in Hk.
  - intros name t Hin Hsame. unfold ckpt. simpl. unfold rename_all.
    by apply fill_lookup_item.
Qed.

(** C10. On the parameter names of the wrapped ResNet the renaming is
    injective, and the [model] dictionary has as many entries as the state
    dictionary of the backbone: no parameter is lost to another. *)
Theorem d2_state_dict_injective (self : TorchvisionVisualStream) :
  let sd := state_dict (cnn self) in
  let ckpt := (detectron2_backbone_state_dict self).1 in
  NoDup sd.*1 ->
  (forall k, k ∈ sd.*1 -> ResNet.is_resnet_key k = true) ->
  (forall k1 k2, k1 ∈ sd.*1 -> k2 ∈ sd.*1 -> d2_name k1 = d2_name k2 -> k1 = k2)
  /\ size (model ckpt) = length sd
  /\ (forall name t, (name, t) ∈ sd -> model ckpt !! d2_name name = Some t).
Proof.
  intros sd ckpt Hnd Hkeys.
  assert (Hinj : forall k1 k2, k1 ∈ sd.*1 -> k2 ∈ sd.*1 ->
                   d2_name k1 = d2_name k2 -> k1 = k2).
  { intros k1 k2 H1 H2. apply d2_name_injective; by apply Hkeys. }
  split; [done|]. split.
  - unfold ckpt. simpl. unfold rename_all.
    rewrite fill_size; [by rewrite map_size_empty| |by intros; apply lookup_empty].
    by apply NoDup_fmap_2_strong.
  - intros name t Hin. unfold ckpt. simpl. unfold rename_all.
    apply fill_lookup_item; [done|].
    intros name' t' Hin' Heq.
    assert (name' = name) as ->.
    { apply Hinj; [| |done].
      - apply list_elem_of_fmap. by exists (name', t').
      - apply list_elem_of_fmap. by exists (name, t). }
    assert (Hfst : forall (l : list (string * Tensor)) n a b,
              NoDup l.*1 -> (n, a) ∈ l -> (n, b) ∈ l -> a = b).
    { clear. induction l as [|[n0 a0] l IH]; intros n a b Hnd Ha Hb.
      - by apply elem_of_nil in Ha.
      - rewrite fmap_cons in Hnd. simpl in Hnd. apply NoDup_cons in Hnd as [Hn0 Hnd].
        apply elem_of_cons in Ha as [Ea|Ha]; apply elem_of_cons in Hb as [Eb|Hb].
        + by simplify_eq.
        + simplify_eq. exfalso. apply Hn0. apply list_elem_of_fmap. by exists (n0, b).
        + simplify_eq. exfalso. apply Hn0. apply list_elem_of_fmap. by exists (n0, a).
        + by apply (IH n a b). }
    by apply (Hfst sd name).
Qed.

End RenamedStateDict.

(** ** The theorems at work in the small world *)

Section Witnesses.
#[local] Existing Instance Example.world.
#[local] Existing Instance Example.libraries.



Lemma tiny_stream_built :
  TorchvisionVisualStream_init "resnet18" 2048 false () = Ok Example.tiny_stream.
Proof. reflexivity. Defined.

Lemma tiny_stream_has_stages (k : string) :
  k ∈ ["layer1"; "layer2"; "layer3"; "layer4"] ->
  k ∈ (named_children (cnn Example.tiny_stream)).*1.
Proof.
  intros Hk. repeat (apply elem_of_cons in Hk as [->|Hk]);
    [decide_by_evaluation ..|by apply elem_of_nil in Hk].
Defined.

Lemma torchvision_forward_intermediate_witness :
  TorchvisionVisualStream_init "resnet18" 2048 false () = Ok Example.tiny_stream
  /\ NoDup (named_children (cnn Example.tiny_stream)).*1
  /\ exists d,
       (TorchvisionVisualStream_forward Example.tiny_stream [42] true).1 = Ok (OutDict d)
       /\ dom d = list_to_set ["layer1"; "layer2"; "layer3"; "layer4"].
Proof.
  assert (Hnd : NoDup (named_children (cnn Example.tiny_stream)).*1)
    by decide_by_evaluation.
  split; [reflexivity|]. split; [exact Hnd|].
  destruct (@torchvision_forward_intermediate Example.world Example.libraries
              "resnet18" 2048 false ()
              Example.tiny_stream [42] tiny_stream_built Hnd tiny_stream_has_stages)
    as (d & Hd & Hdom & _).
  exists d. split; [exact Hd|exact Hdom].
Defined.

Lemma torchvision_head_stripped_witness :
  let pre := take 7 (named_children (cnn Example.tiny_stream)) in
  let post := [("avgpool", Example.tag 8 []); ("fc", Identity)] in
  named_children (cnn Example.tiny_stream)
    = pre ++ ("layer4", Example.tag 7 Example.stage_state) :: post
  /\ ("layer4" ∉ post.*1)
  /\ lookup_child "fc" (named_children (cnn Example.tiny_stream)) = Some Identity
  /\ (TorchvisionVisualStream_forward Example.tiny_stream [42] false).1
     = Ok (OutTensor [7; 6; 5; 4; 3; 2; 1; 0; 42]).
Proof.
  intros pre post.
  assert (Hpost : "layer4" ∉ post.*1)
    by decide_by_evaluation.
  split; [reflexivity|]. split; [exact Hpost|].
  destruct (@torchvision_head_stripped Example.world Example.libraries
              "resnet18" 2048 false () Example.tiny_stream [42]
              pre post (Example.tag 7 Example.stage_state)
              tiny_stream_built eq_refl Hpost) as (Hfc & Hout & _).
  split; [exact Hfc|exact Hout].
Defined.

Lemma tiny_d2_stream_built :
  D2BackboneVisualStream_init "coco_faster_rcnn_R_50_C4" 2048 false
    (Example.disk "COCO-Detection/faster_rcnn_R_50_C4_3x.yaml" Example.config_text)
  = (Ok Example.tiny_d2_stream,
     Example.disk "COCO-Detection/faster_rcnn_R_50_C4_3x.yaml" Example.config_text).
Proof. vm_compute. reflexivity. Defined.

Lemma tiny_d2_stream_has_stages (k : string) :
  k ∈ ["res2"; "res3"; "res4"] -> k ∈ (named_children (d2_cnn Example.tiny_d2_stream)).*1.
Proof.
  intros Hk. repeat (apply elem_of_cons in Hk as [->|Hk]);
    [decide_by_evaluation ..|by apply elem_of_nil in Hk].
Defined.

Lemma adapters_same_access_pattern_witness :
  TorchvisionVisualStream_init "resnet18" 2048 false () = Ok Example.tiny_stream
  /\ (exists d t,
        (TorchvisionVisualStream_forward Example.tiny_stream [42] true).1 = Ok (OutDict d)
        /\ dom d = list_to_set ["layer1"; "layer2"; "layer3"; "layer4"]
        /\ d !! "layer4" = Some t
        /\ (TorchvisionVisualStream_forward Example.tiny_stream [42] false).1
           = Ok (OutTensor t))
  /\ (exists d t,
        (D2BackboneVisualStream_forward Example.tiny_d2_stream [42] true).1 = Ok (OutDict d)
        /\ dom d = list_to_set ["layer1"; "layer2"; "layer3"; "layer4"]
        /\ d !! "layer4" = Some t
        /\ (D2BackboneVisualStream_forward Example.tiny_d2_stream [42] false).1
           = Ok (OutTensor t)).
Proof.
  split; [reflexivity|].
  destruct (@adapters_same_access_pattern Example.world Example.libraries
              "resnet18" 2048 false () Example.tiny_stream
              "coco_faster_rcnn_R_50_C4" 2048 false _ _ Example.tiny_d2_stream [42]
              tiny_stream_built tiny_stream_has_stages
              tiny_d2_stream_built tiny_d2_stream_has_stages)
    as [Htv (d & t & H1 & H2 & H3 & H4 & _)].
  split; [exact Htv|]. exists d, t. auto.
Defined.

Lemma d2_init_unknown_name_witness :
  MODEL_NAME_TO_CFG_PATH !! "resnet50" = None
  /\ D2BackboneVisualStream_init "resnet50" 2048 false
       (Example.disk "COCO-Detection/faster_rcnn_R_50_C4_3x.yaml" Example.config_text)
     = (Raise (KeyError "resnet50"),
        Example.disk "COCO-Detection/faster_rcnn_R_50_C4_3x.yaml" Example.config_text).
Proof.
  split; [reflexivity|].
  apply (d2_init_unknown_name "resnet50" 2048). reflexivity.
Defined.

Lemma visual_feature_size_fixed_witness :
  visual_feature_size (super Example.tiny_stream) = 2048%Z
  /\ visual_feature_size
       (super (TorchvisionVisualStream_forward Example.tiny_stream [42] true).2) = 2048%Z
  /\ visual_feature_size (super Example.tiny_d2_stream) = 2048%Z.
Proof.
  destruct (@visual_feature_size_fixed Example.world Example.libraries 2048) as (_ & _ & Htv & Hd2).
  destruct (Htv "resnet18" false () Example.tiny_stream tiny_stream_built)
    as (H1 & H2 & _).
  destruct (Hd2 "coco_faster_rcnn_R_50_C4" false _ _ Example.tiny_d2_stream
              tiny_d2_stream_built) as (H3 & _).
  split; [exact H1|]. split; [apply H2|exact H3].
Defined.

Lemma d2_state_dict_renamed_witness :
  ("layer2.0.downsample.1.bias", [18]) ∈ state_dict (cnn Example.tiny_stream)
  /\ d2_name "layer2.0.downsample.1.bias" = "res3.0.shortcut.norm.bias"
  /\ model (detectron2_backbone_state_dict Example.tiny_stream).1
       !! "res3.0.shortcut.norm.bias" = Some [18].
Proof.
  assert (Hin : ("layer2.0.downsample.1.bias", [18]) ∈ state_dict (cnn Example.tiny_stream))
    by decide_by_evaluation.
  split; [exact Hin|]. split; [reflexivity|].
  destruct (d2_state_dict_renamed Example.tiny_stream)
    as (_ & _ & _ & _ & _ & Hfound).
  apply (Hfound "layer2.0.downsample.1.bias" [18] Hin).
  intros name' t' Hin' Hsame. revert name' t' Hin' Hsame.
  assert (Hall : Forall (fun item : string * list nat =>
                           d2_name item.1 = d2_name "layer2.0.downsample.1.bias"
                           -> item.2 = [18])
                   (state_dict (cnn Example.tiny_stream)))
    by decide_by_evaluation.
  intros name' t' Hin'. exact (proj1 (Forall_forall _ _) Hall (name', t') Hin').
Defined.

Lemma d2_state_dict_injective_witness :
  NoDup (state_dict (cnn Example.tiny_stream)).*1
  /\ (forall k, k ∈ (state_dict (cnn Example.tiny_stream)).*1 ->
                ResNet.is_resnet_key k = true)
  /\ size (model (detectron2_backbone_state_dict Example.tiny_stream).1)
     = length (state_dict (cnn Example.tiny_stream)).
Proof.
  assert (Hnd : NoDup (state_dict (cnn Example.tiny_stream)).*1)
    by decide_by_evaluation.
  assert (Hkeys : forall k, k ∈ (state_dict (cnn Example.tiny_stream)).*1 ->
                            ResNet.is_resnet_key k = true).
  { apply Forall_forall. decide_by_evaluation. }
  split; [exact Hnd|]. split; [exact Hkeys|].
  exact (proj1 (proj2 (d2_state_dict_injective Example.tiny_stream Hnd Hkeys))).
Defined.


End Witnesses.

(** ** Where the revert of the config file falls short *)

Section Shortfalls.
#[local] Existing Instance Example.world.
#[local] Existing Instance Example.libraries.


(** An exception that does not derive from [Exception] (here an
    interrupt) passes the second [try] and the revert is not reached. *)
Lemma d2_init_interrupted_keeps_patch :
  let name := "coco_mask_rcnn_R_101_DC5" in
  let cfg := "COCO-InstanceSegmentation/mask_rcnn_R_101_DC5_3x.yaml" in
  let fs := Example.disk cfg Example.config_text in
  (D2BackboneVisualStream_init name 2048 false fs).1
  = Raise (Foreign "KeyboardInterrupt")
  /\ (D2BackboneVisualStream_init name 2048 false fs).2 !! ("/d2/configs/" +:+ cfg)
     = Some ("_BASE_: ../Base-RCNN-C4.yaml" +:+ Example.nl +:+
             "MODEL:" +:+ Example.nl +:+
             "  WEIGHTS: " +:+ dquote +:+ dquote +:+ Example.nl +:+
             "  MASK_ON: False" +:+ Example.nl).
Proof. intros name cfg fs. split; vm_compute; reflexivity. Qed.

End Shortfalls.

(** * Further properties of the module *)

(** ** D2BackboneVisualStream.__init__: failures and the files it touches *)

Section D2InitEdges.
Context `{PyWorld} `{!Libraries}.

(** The constructor with [pretrained=False] on a config file with a WEIGHTS
    entry, whatever else the file holds: the model zoo sees the patched
    file, and the revert is one more textual replacement on it. *)
Lemma d2_init_run (name cfg contents w : string) (vfs : Z) (fs : FileSystem) :
  let path := resource_filename "detectron2.model_zoo" (path_join "configs" cfg) in
  MODEL_NAME_TO_CFG_PATH !! name = Some cfg ->
  fs !! path = Some contents ->
  re_search_weights contents = Some w ->
  let patched := <[path := PyStr.replace contents w ""]> fs in
  let reverted :=
    <[path := PyStr.replace (PyStr.replace contents w "")
                ("WEIGHTS: " +:+ dquote +:+ dquote)
                ("WEIGHTS: " +:+ dquote +:+ w +:+ dquote)]> patched in
  D2BackboneVisualStream_init name vfs false fs
  = match d2mz_get cfg false patched with
    | inr m =>
        (Ok {| d2_super := VisualStream_init vfs;
               d2_cnn := backbone m;
               _layer4 := roi_heads_res5 m;
               d2_stage_names := ["res2"; "res3"; "res4"] |}, reverted)
    | inl e => (Raise (Foreign e), if is_Exception e then reverted else patched)
    end.
Proof.
  intros path Hname Hfile Hre patched reverted.
  unfold D2BackboneVisualStream_init.
  unfold mbind at 1, IO_bind at 1.
  rewrite (patch_config_run name cfg contents w fs Hname Hfile Hre).
  fold path. fold patched.
  unfold mbind at 1, IO_bind at 1.
  rewrite (build_model_run name cfg patched Hname).
  destruct (d2mz_get cfg false patched) as [e|m].
  - destruct (is_Exception e); [|done].
    unfold mbind, IO_bind.
    by rewrite (restore_config_run path w (PyStr.replace contents w "") patched)
      by apply lookup_insert_eq.
  - unfold mbind, IO_bind.
    by rewrite (restore_config_run path w (PyStr.replace contents w "") patched)
      by apply lookup_insert_eq.
Qed.

(** X1. With [pretrained=False] and a known name whose config file does not
    exist, the constructor raises [RuntimeError] with the message built
    from the name, and writes nothing. *)
Theorem d2_init_missing_config (name cfg : string) (vfs : Z) (fs : FileSystem) :
  MODEL_NAME_TO_CFG_PATH !! name = Some cfg ->
  fs !! resource_filename "detectron2.model_zoo" (path_join "configs" cfg) = None ->
  D2BackboneVisualStream_init name vfs false fs
  = (Raise (RuntimeError (name +:+ " is no available from D2 model zoo!")), fs).
Proof.
  intros Hname Hfile.
  unfold D2BackboneVisualStream_init, patch_config, try_except, mbind, IO_bind,
    lift, getitem, read_file, raise.
  simpl. rewrite Hname. by rewrite Hfile.
Qed.

(** X2. With [pretrained=False] and a config file in which the pattern
    finds no WEIGHTS entry, the constructor raises [TypeError] (the
    subscript of the failed search) before it writes the file or calls the
    model zoo: the file system is as before. *)
Theorem d2_init_no_weights_entry
    (name cfg contents : string) (vfs : Z) (fs : FileSystem) :
  MODEL_NAME_TO_CFG_PATH !! name = Some cfg ->
  fs !! resource_filename "detectron2.model_zoo" (path_join "configs" cfg) = Some contents ->
  re_search_weights contents = None ->
  D2BackboneVisualStream_init name vfs false fs = (Raise TypeError, fs).
Proof.
  intros Hname Hfile Hre.
  unfold D2BackboneVisualStream_init, patch_config, try_except, mbind, IO_bind,
    lift, getitem, read_file.
  simpl. rewrite Hname. rewrite Hfile. by rewrite Hre.
Qed.



End D2InitEdges.

(** ** forward on backbones that lack a stage *)

Section ForwardEdges.
Context `{PyWorld} `{!Libraries}.

(** A key that is no stage name or that no child bears is not collected. *)
Lemma collect_lookup_None (names : list string) (x : Tensor)
    (children : list (string * Layer)) (k : string) :
  k ∉ children.*1 \/ k ∉ names -> collect names x children ∅ !! k = None.
Proof. intros Hk. by rewrite collect_lookup_other. Qed.



(** What [forward] of a [D2BackboneVisualStream] does once the loop is
    over, for a backbone with at least one child. *)
Lemma d2_forward_after_loop (self : D2BackboneVisualStream) (image : Tensor) (rio : bool) :
  named_children (d2_cnn self) <> [] ->
  (D2BackboneVisualStream_forward self image rio).1
  = let children := named_children (d2_cnn self) in
    let inter := <["res5" := call (_layer4 self) (feed children image)]>
                   (collect (d2_stage_names self) image children ∅) in
    res2 ← getitem inter "res2";
    res3 ← getitem inter "res3";
    res4 ← getitem inter "res4";
    res5 ← getitem inter "res5";
    let d : gmap string Tensor :=
      <["layer4" := res5]> (<["layer3" := res4]> (<["layer2" := res3]>
        (<["layer1" := res2]> ∅))) in
    if rio then Ok (OutDict d) else t ← getitem d "layer4"; Ok (OutTensor t).
Proof.
  intros Hne. unfold D2BackboneVisualStream_forward. simpl.
  rewrite (forward_loop_collect _ _ _ 0 None ∅ image) by done. simpl.
  by destruct (named_children (d2_cnn self)).
Qed.

(** X7. [forward] of a [D2BackboneVisualStream] over a backbone without
    children raises [UnboundLocalError]: the loop never binds [out], which
    the res5 head is then called on. *)
Theorem d2_forward_empty_backbone
    (self : D2BackboneVisualStream) (image : Tensor) (rio : bool) :
  named_children (d2_cnn self) = [] ->
  (D2BackboneVisualStream_forward self image rio).1 = Raise (UnboundLocalError "out").
Proof.
  intros Hnil. unfold D2BackboneVisualStream_forward. by rewrite Hnil.
Qed.


End ForwardEdges.

(** ** TorchvisionVisualStream.__init__: what stripping the head keeps *)

Section HeadStripped.
Context `{PyWorld} `{!Libraries}.
Implicit Types (cs : list (string * Layer)).

Lemma lookup_set_child_ne (name n : string) (l : Layer) cs :
  n <> name -> lookup_child n (set_child name l cs) = lookup_child n cs.
Proof.
  intros Hne. unfold lookup_child. induction cs as [|[n0 l0] cs IH]; simpl.
  - destruct (String.eqb_spec name n) as [->|_]; done.
  - destruct (String.eqb_spec n0 name) as [->|Hn0]; simpl.
    + destruct (String.eqb_spec name n) as [->|_]; done.
    + destruct (String.eqb_spec n0 n); [done|]. apply IH.
Qed.

Lemma set_child_names (name : string) (l : Layer) cs :
  (set_child name l cs).*1 = if decide (name ∈ cs.*1) then cs.*1 else cs.*1 ++ [name].
Proof.
  induction cs as [|[n0 l0] cs IH].
  - destruct (decide (name ∈ ([] : list (string * Layer)).*1)) as [Hin|_]; [|done].
    by apply elem_of_nil in Hin.
  - destruct (decide (name ∈ ((n0, l0) :: cs).*1)) as [Hin|Hin];
      cbn [set_child]; destruct (String.eqb_spec n0 name) as [->|Hn0];
      rewrite !fmap_cons in *; cbn [fst] in *.
    + done.
    + rewrite IH. rewrite decide_True; [done|].
      apply elem_of_cons in Hin as [?|?]; [by subst|done].
    + exfalso. apply Hin. left.
    + rewrite IH. rewrite decide_False; [done|].
      intros Hc. apply Hin. by right.
Qed.

Lemma filter_other_children (name : string) cs :
  name ∉ cs.*1 -> filter (fun c : string * Layer => c.1 <> name) cs = cs.
Proof.
  induction cs as [|[n0 l0] cs IH]; intros Hin; [done|].
  rewrite filter_cons. simpl. rewrite decide_True.
  - rewrite IH; [done|]. intros Hc. apply Hin. simpl. by right.
  - intros ->. apply Hin. simpl. left.
Qed.

(** A child without parameters put under [name] takes the parameters of
    the former child of that name out of the state dictionary and leaves
    the others in their order. *)
Lemma state_dict_set_child (name : string) (l : Layer) cs :
  layer_state l = [] ->
  NoDup cs.*1 ->
  state_dict {| named_children := set_child name l cs |}
  = state_dict {| named_children := filter (fun c => c.1 <> name) cs |}.
Proof.
  intros Hl. unfold state_dict. simpl.
  induction cs as [|[n0 l0] cs IH]; intros Hnd.
  - simpl. by rewrite Hl.
  - rewrite fmap_cons in Hnd. simpl in Hnd. apply NoDup_cons in Hnd as [Hn0 Hnd].
    simpl. rewrite filter_cons. simpl.
    destruct (String.eqb_spec n0 name) as [->|Hne].
    + rewrite decide_False by (intros Hc; by apply Hc).
      simpl. rewrite Hl. simpl. by rewrite filter_other_children.
    + rewrite decide_True by done. simpl. by rewrite IH.
Qed.

(** X9. Apart from the head, the constructor of [TorchvisionVisualStream]
    keeps the backbone it was given: every child but [fc] is the child
    the torchvision constructor built, the children keep their order
    ([fc] is registered last when the backbone had none), and the state
    dictionary is that of the backbone without the parameters of [fc]. *)
Theorem torchvision_init_keeps_backbone
    (name : string) (vfs : Z) (pretrained : bool) (kwargs : Kwargs)
    (self : TorchvisionVisualStream)
    (ctor : bool -> bool -> Kwargs -> ForeignExn + NNModule) (m : NNModule) :
  TorchvisionVisualStream_init name vfs pretrained kwargs = Ok self ->
  torchvision_models name = Some ctor ->
  ctor pretrained true kwargs = inr m ->
  (forall n, n <> "fc" ->
             lookup_child n (named_children (cnn self)) = lookup_child n (named_children m))
  /\ (named_children (cnn self)).*1
     = (if decide ("fc" ∈ (named_children m).*1)
        then (named_children m).*1 else (named_children m).*1 ++ ["fc"])
  /\ (NoDup (named_children m).*1 ->
      state_dict (cnn self)
      = state_dict {| named_children :=
                        filter (fun c => c.1 <> "fc") (named_children m) |}).
Proof.
  intros Hinit Hctor Hm.
  destruct (torchvision_init_inv _ _ _ _ _ Hinit) as (ctor' & m' & Hctor' & Hm' & ->).
  rewrite Hctor in Hctor'. injection Hctor' as <-.
  rewrite Hm in Hm'. injection Hm' as <-.
  simpl. split; [|split].
  - intros n Hn. by apply lookup_set_child_ne.
  - apply set_child_names.
  - intros Hnd. by apply state_dict_set_child.
Qed.

End HeadStripped.

(** ** detectron2_backbone_state_dict: colliding and untouched names *)

Section CheckpointEdges.
Context `{PyWorld} `{!Libraries}.
Implicit Types (items : list (string * Tensor)) (d : gmap string Tensor).

Lemma fill_size_le items : forall d, (size (fill d items) <= size d + length items)%nat.
Proof.
  induction items as [|[n p] rest IH]; intros d; [simpl; lia|].
  rewrite fill_cons. specialize (IH (<[d2_name n := p]> d)).
  rewrite map_size_insert in IH. cbn [length].
  destruct (d !! d2_name n); unfold id in IH; lia.
Qed.

(** X10. The [model] dictionary of the checkpoint never has more entries
    than the state dictionary of the backbone. *)
Theorem d2_checkpoint_size_le (self : TorchvisionVisualStream) :
  (size (model (detectron2_backbone_state_dict self).1)
   <= length (state_dict (cnn self)))%nat.
Proof.
  simpl. unfold rename_all.
  pose proof (fill_size_le (state_dict (cnn self)) ∅) as Hle.
  by rewrite map_size_empty in Hle.
Qed.

(** X11. When several parameters get the same new key, the checkpoint
    holds the tensor of the last of them in the order of the state
    dictionary: an entry is overwritten by a later one, never by an
    earlier one. *)
Theorem d2_checkpoint_last_wins
    (self : TorchvisionVisualStream) (pre post : list (string * Tensor))
    (name : string) (t : Tensor) :
  state_dict (cnn self) = pre ++ (name, t) :: post ->
  (forall name' t', (name', t') ∈ post -> d2_name name' <> d2_name name) ->
  model (detectron2_backbone_state_dict self).1 !! d2_name name = Some t.
Proof.
  intros Hsd Hpost. simpl. unfold rename_all.
  rewrite Hsd, fill_app, fill_cons. apply fill_lookup_keep.
  - apply lookup_insert_eq.
  - intros name' t' Hin Heq. by destruct (Hpost name' t' Hin).
Qed.

End CheckpointEdges.

Section RenameEdges.
Implicit Types (name idx q old new : string).

Lemma apply_mapping_none name (mapping : list (string * string)) :
  Forall (fun entry => entry.1 <> "" /\ PyStr.occurrences name entry.1 = 0%nat) mapping ->
  apply_mapping mapping name = name.
Proof.
  unfold apply_mapping.
  induction mapping as [|[old new] rest IH]; intros Hall; [done|].
  apply Forall_cons in Hall as [[Hold Hocc] Hall]. simpl in Hold, Hocc.
  assert (Hsame : PyStr.replace name old new = name).
  { unfold PyStr.replace. destruct old as [|o old']; [done|].
    by apply replace_go_none. }
  cbn [foldl]. rewrite Hsame. by apply IH.
Qed.

(** X12. A name that holds none of the substrings of the rename table is
    left as it is, but for the prefix [stem.] that it gets unless it
    starts with [res]. *)
Theorem d2_name_untouched name :
  Forall (fun entry => PyStr.occurrences name entry.1 = 0%nat) DETECTRON2_RENAME_MAPPING ->
  d2_name name = if PyStr.startswith name "res" then name else "stem." +:+ name.
Proof.
  intros Hall.
  assert (Hne : Forall (fun entry : string * string => entry.1 <> "")
                  DETECTRON2_RENAME_MAPPING)
    by (repeat constructor; done).
  assert (Hsame : rename_substrings name = name).
  { apply apply_mapping_none.
    apply Forall_forall. intros entry Hin.
    split; [by apply (proj1 (Forall_forall _ _) Hne)|by apply (proj1 (Forall_forall _ _) Hall)]. }
  unfold d2_name. cbv zeta. rewrite Hsame.
  by destruct (PyStr.startswith name "res").
Qed.

Lemma rename_substrings_after_dot q :
  rename_substrings ("." +:+ q) = "." +:+ rename_substrings q.
Proof.
  unfold rename_substrings.
  pose proof (apply_mapping_parts "" DETECTRON2_RENAME_MAPPING "." q) as Hparts.
  rewrite string_app_nil_l in Hparts.
  rewrite Hparts; [done| |done].
  vm_compute. reflexivity.
Qed.

(** X13. The parameter of block [idx] of a stage keeps its block number:
    layer1 to layer4 become res2 to res5, the number stays as it is, only
    the name of the parameter inside the block goes through the table,
    and no [stem.] prefix is put in front. *)
Theorem d2_name_block_parameter_kept idx q :
  PyStr.all_chars PyStr.is_digit idx = true ->
  d2_name ("layer1." +:+ idx +:+ "." +:+ q) = "res2." +:+ idx +:+ "." +:+ rename_substrings q
  /\ d2_name ("layer2." +:+ idx +:+ "." +:+ q) = "res3." +:+ idx +:+ "." +:+ rename_substrings q
  /\ d2_name ("layer3." +:+ idx +:+ "." +:+ q) = "res4." +:+ idx +:+ "." +:+ rename_substrings q
  /\ d2_name ("layer4." +:+ idx +:+ "." +:+ q) = "res5." +:+ idx +:+ "." +:+ rename_substrings q.
Proof.
  intros Hidx.
  assert (Hstage : forall stage, stage ∈ ResNet.stage_prefixes ->
            d2_name (stage +:+ idx +:+ "." +:+ q)
            = rename_substrings stage +:+ idx +:+ "." +:+ rename_substrings q).
  { intros stage Hs. destruct (d2_name_block stage idx q Hs Hidx) as [-> _].
    by rewrite rename_substrings_after_dot. }
  repeat split; rewrite Hstage; try reflexivity;
    unfold ResNet.stage_prefixes; rewrite !elem_of_cons; tauto.
Qed.

End RenameEdges.

(** ** The search for the WEIGHTS entry *)

Section WeightsSearch.
Context `{PyWorld} `{!Libraries}.
Implicit Types (s w l pre post : string).

Lemma newline_free_app s1 s2 :
  newline_free (s1 +:+ s2) = newline_free s1 && newline_free s2.
Proof.
  unfold newline_free. induction s1 as [|c s1 IH]; [done|].
  rewrite string_app_cons. simpl. rewrite IH. by rewrite andb_assoc.
Qed.

Lemma until_newline_free s : forall l, until_newline s = Some l -> newline_free l = true.
Proof.
  induction s as [|c s IH]; intros l; simpl; [done|].
  destruct (Ascii.eqb c newline) eqn:Hc; [by intros [= <-]|].
  destruct (until_newline s) as [l'|]; simpl; [|done].
  intros [= <-]. unfold newline_free. simpl. rewrite Hc. simpl. by apply IH.
Qed.

Lemma until_newline_complete l post :
  newline_free l = true -> until_newline (l +:+ String newline post) = Some l.
Proof.
  unfold newline_free. induction l as [|c l IH]; intros Hl.
  - rewrite string_app_nil_l. reflexivity.
  - simpl in Hl. apply andb_true_iff in Hl as [Hc Hl].
    rewrite string_app_cons. simpl.
    apply negb_true_iff in Hc. rewrite Hc. by rewrite IH.
Qed.

Lemma strip_quote_complete w : strip_quote (w +:+ dquote) = Some w.
Proof.
  induction w as [|c w IH]; [done|].
  rewrite string_app_cons. cbn [strip_quote].
  destruct (w +:+ dquote) as [|c' t] eqn:E.
  - by destruct w.
  - by rewrite IH.
Qed.

Lemma match_weights_complete w post :
  newline_free w = true ->
  match_weights (("WEIGHTS: " +:+ dquote) +:+ w +:+ dquote +:+ String newline post) = Some w.
Proof.
  intros Hw. unfold match_weights.
  rewrite startswith_app.
  change 10%nat with (String.length ("WEIGHTS: " +:+ dquote)).
  rewrite drop_app. rewrite <- string_app_assoc.
  rewrite until_newline_complete.
  - simpl. apply strip_quote_complete.
  - rewrite newline_free_app, Hw. reflexivity.
Qed.

Lemma re_search_of_match s w :
  match_weights s = Some w -> re_search_weights s = Some w.
Proof.
  intros Hm. destruct s as [|c s]; [by vm_compute in Hm|].
  cbn [re_search_weights]. by rewrite Hm.
Qed.

(** X14. The search finds a value exactly when the text holds WEIGHTS, a
    colon, a space and a quoted text free of newlines that ends its line;
    the value it gives is such a quoted text of the file. *)
Theorem re_search_weights_finds s :
  (is_Some (re_search_weights s)
   <-> exists pre w post,
         newline_free w = true
         /\ s = pre +:+ ("WEIGHTS: " +:+ dquote) +:+ w +:+ dquote +:+ String newline post)
  /\ (forall w, re_search_weights s = Some w ->
        newline_free w = true
        /\ exists pre post,
             s = pre +:+ ("WEIGHTS: " +:+ dquote) +:+ w +:+ dquote +:+ String newline post).
Proof.
  assert (Hfree : forall s w, match_weights s = Some w -> newline_free w = true).
  { clear s. intros s w. unfold match_weights.
    destruct (PyStr.startswith s ("WEIGHTS: " +:+ dquote)); [|done].
    destruct (until_newline (PyStr.drop 10 s)) as [l|] eqn:Hl; simpl; [|done].
    intros Hw%strip_quote_sound. subst l.
    apply until_newline_free in Hl. rewrite newline_free_app in Hl.
    by apply andb_true_iff in Hl as [Hl _]. }
  assert (Hfound : forall s w, re_search_weights s = Some w -> newline_free w = true).
  { clear s. induction s as [|c s IH]; intros w; [done|].
    cbn [re_search_weights].
    destruct (match_weights (String c s)) as [w'|] eqn:Hm; [|by apply IH].
    intros [= <-]. by apply (Hfree _ _ Hm). }
  split.
  - split.
    + intros [w Hw]. destruct (re_search_weights_sound s w Hw) as (pre & post & ->).
      exists pre, w, post. split; [by apply (Hfound _ _ Hw)|done].
    + intros (pre & w & post & Hw & ->).
      induction pre as [|c pre IH].
      * rewrite string_app_nil_l.
        rewrite (re_search_of_match _ w (match_weights_complete w post Hw)).
        by eexists.
      * rewrite string_app_cons. cbn [re_search_weights].
        destruct (match_weights _); [by eexists|done].
  - intros w Hw. split; [by apply (Hfound _ _ Hw)|by apply re_search_weights_sound].
Qed.

End WeightsSearch.

(** ** The further properties at work in the small world *)

Section MoreWitnesses.
#[local] Existing Instance Example.world.
#[local] Existing Instance Example.libraries.

Lemma d2_init_missing_config_witness :
  MODEL_NAME_TO_CFG_PATH !! "coco_faster_rcnn_R_50_C4"
    = Some "COCO-Detection/faster_rcnn_R_50_C4_3x.yaml"
  /\ D2BackboneVisualStream_init "coco_faster_rcnn_R_50_C4" 2048 false ∅
     = (Raise (RuntimeError "coco_faster_rcnn_R_50_C4 is no available from D2 model zoo!"),
        ∅).
Proof.
  split; [reflexivity|].
  apply (d2_init_missing_config "coco_faster_rcnn_R_50_C4"
           "COCO-Detection/faster_rcnn_R_50_C4_3x.yaml" 2048 ∅); reflexivity.
Defined.

Lemma d2_init_no_weights_entry_witness :
  let cfg := "COCO-Detection/faster_rcnn_R_50_C4_3x.yaml" in
  let fs := Example.disk cfg Lacking.config_without_weights in
  re_search_weights Lacking.config_without_weights = None
  /\ D2BackboneVisualStream_init "coco_faster_rcnn_R_50_C4" 2048 false fs
     = (Raise TypeError, fs).
Proof.
  intros cfg fs.
  assert (Hre : re_search_weights Lacking.config_without_weights = None)
    by (vm_compute; reflexivity).
  split; [exact Hre|].
  apply (d2_init_no_weights_entry "coco_faster_rcnn_R_50_C4" cfg
           Lacking.config_without_weights 2048 fs);
    [reflexivity|vm_compute; reflexivity|exact Hre].
Defined.



Lemma d2_forward_empty_backbone_witness :
  named_children (d2_cnn Lacking.empty_d2_stream) = []
  /\ (D2BackboneVisualStream_forward Lacking.empty_d2_stream [42] true).1
     = Raise (UnboundLocalError "out").
Proof.
  split; [reflexivity|].
  apply d2_forward_empty_backbone. reflexivity.
Defined.


Lemma torchvision_init_keeps_backbone_witness :
  TorchvisionVisualStream_init "resnet18" 2048 false () = Ok Example.tiny_stream
  /\ NoDup (named_children Example.tiny_resnet).*1
  /\ lookup_child "layer3" (named_children (cnn Example.tiny_stream))
     = lookup_child "layer3" (named_children Example.tiny_resnet)
  /\ length (state_dict (cnn Example.tiny_stream)) = 42%nat.
Proof.
  assert (Hnd : NoDup (named_children Example.tiny_resnet).*1) by decide_by_evaluation.
  split; [reflexivity|]. split; [exact Hnd|].
  destruct (@torchvision_init_keeps_backbone Example.world Example.libraries
              "resnet18" 2048 false () Example.tiny_stream
              (fun _ _ _ => inr Example.tiny_resnet) Example.tiny_resnet
              eq_refl eq_refl eq_refl) as (Hchild & _ & Hstate).
  split; [by apply Hchild|].
  rewrite (Hstate Hnd). vm_compute. reflexivity.
Defined.

Lemma d2_checkpoint_last_wins_witness :
  state_dict (cnn Lacking.colliding_stream)
    = [("bn1.weight", [1])] ++ ("conv1.norm.weight", [2]) :: [("conv1.weight", [3])]
  /\ d2_name "bn1.weight" = d2_name "conv1.norm.weight"
  /\ model (detectron2_backbone_state_dict Lacking.colliding_stream).1
       !! "stem.conv1.norm.weight" = Some [2].
Proof.
  split; [reflexivity|]. split; [reflexivity|].
  apply (d2_checkpoint_last_wins Lacking.colliding_stream
           [("bn1.weight", [1])] [("conv1.weight", [3])] "conv1.norm.weight" [2]);
    [reflexivity|].
  intros name' t' Hin. apply list_elem_of_singleton in Hin. injection Hin as -> ->.
  vm_compute. discriminate.
Defined.

Lemma d2_name_untouched_witness :
  Forall (fun entry : string * string => PyStr.occurrences "conv1.weight" entry.1 = 0%nat)
    DETECTRON2_RENAME_MAPPING
  /\ d2_name "conv1.weight" = "stem.conv1.weight".
Proof.
  assert (Hall : Forall (fun entry : string * string =>
                           PyStr.occurrences "conv1.weight" entry.1 = 0%nat)
                   DETECTRON2_RENAME_MAPPING)
    by (repeat constructor).
  split; [exact Hall|].
  exact (d2_name_untouched "conv1.weight" Hall).
Defined.

Lemma d2_name_block_parameter_kept_witness :
  PyStr.all_chars PyStr.is_digit "22" = true
  /\ d2_name ("layer3." +:+ "22" +:+ "." +:+ "bn3.weight")
     = "res4." +:+ "22" +:+ "." +:+ "conv3.norm.weight".
Proof.
  split; [reflexivity|].
  exact (proj1 (proj2 (proj2 (d2_name_block_parameter_kept "22" "bn3.weight" eq_refl)))).
Defined.

Lemma re_search_weights_finds_witness :
  re_search_weights Example.config_text
    = Some "detectron2://ImageNetPretrained/MSRA/R-50.pkl"
  /\ newline_free "detectron2://ImageNetPretrained/MSRA/R-50.pkl" = true.
Proof.
  assert (Hre : re_search_weights Example.config_text
                = Some "detectron2://ImageNetPretrained/MSRA/R-50.pkl")
    by (vm_compute; reflexivity).
  split; [exact Hre|].
  exact (proj1 (proj2 (re_search_weights_finds Example.config_text) _ Hre)).
Defined.

End MoreWitnesses.
